(** * robotlib.signals: filters and signal generators

    A shallow embedding of [robotlib/signals/filters.py] and of the
    validation and the duty-cycle waveforms of
    [robotlib/signals/generators.py], with the properties proved about them.

    - A Python object is a record and a method is a computation in the
      monad [M] over that record: it returns a value or raises, and hands
      back the object in both cases, since an exception does not undo the
      assignments made before it.
    - Python's [float] is the class [Num]: the operations the two modules
      use.  It is interpreted twice, as [float] (IEEE 754 binary64, what
      CPython computes; everything evaluates) and as [R] (exact
      arithmetic).  What does not depend on the arithmetic is proved once,
      for every interpretation.  Numeric arguments are floats throughout;
      a Python [int] passed for one behaves as the float of the same value.
    - [x / y] and [x % y] on floats raise [ZeroDivisionError] when
      [y == 0.0]: [truediv] and [pymod].

    Not modelled: [SineWaveGenerator] (it needs [math.sin]),
    [GaussianRandomSignalGenerator], the draws of the random generators,
    and [sample_iter]. *)

From Stdlib Require Import Bool List String ZArith Floats Reals Lra.
Import ListNotations.

(** ** Exceptions and results *)

(** The exceptions the two modules can raise.  [ValueError] is what the
    specification calls InvalidParameter. *)
Inductive exn : Set :=
| ValueError
| ZeroDivisionError.

Inductive result (A : Type) : Type :=
| Ok (a : A)
| Raise (e : exn).

Arguments Ok {A} a.
Arguments Raise {A} e.

(** Sequencing for constructors and checks, which have no object yet. *)
Definition rbind {A B : Type} (r : result A) (k : A -> result B) : result B :=
  match r with
  | Ok a => k a
  | Raise e => Raise e
  end.

(** ** Methods *)

(** A method of an object of type [S] that returns an [A]. *)
Definition M (S A : Type) : Type := S -> result A * S.

Definition ret {S A : Type} (a : A) : M S A := fun s => (Ok a, s).

Definition bind {S A B : Type} (m : M S A) (k : A -> M S B) : M S B :=
  fun s =>
    match m s with
    | (Ok a, s') => k a s'
    | (Raise e, s') => (Raise e, s')
    end.

(** Reading an attribute, assigning attributes, and running a computation
    that does not touch the object. *)
Definition gets {S A : Type} (f : S -> A) : M S A := fun s => (Ok (f s), s).
Definition modify {S : Type} (f : S -> S) : M S unit := fun s => (Ok tt, f s).
Definition lift {S A : Type} (r : result A) : M S A := fun s => (r, s).

(** Calling a method of an owned sub-object [self.x]: the sub-object is
    updated in place inside its owner. *)
Definition zoom {S T A : Type} (get : S -> T) (put : T -> S -> S)
    (m : M T A) : M S A :=
  fun s => let (r, t') := m (get s) in (r, put t' s).

Declare Scope py_scope.
Delimit Scope py_scope with py.

Notation "x <- m ;; k" := (bind m (fun x => k))
  (at level 61, m at next level, right associativity) : py_scope.
Notation "m ;; k" := (bind m (fun _ => k))
  (at level 61, right associativity) : py_scope.
Notation "x <-r m ;; k" := (rbind m (fun x => k))
  (at level 61, m at next level, right associativity) : py_scope.
Notation "m ;;r k" := (rbind m (fun _ => k))
  (at level 61, right associativity) : py_scope.

(** ** Python floats *)

(** The float operations used by the source.  [f0], [f1] and [f2] are the
    literals [0.0], [1.0] and [2.0] (an [int] operand such as the [2] of
    [2 * pi] is converted to a float before the operation); [fpi] is
    [math.pi]; [fdiv] and [fmod] are the quotient [x / y] and the remainder
    [x % y] for a nonzero divisor. *)
Class Num (F : Type) : Type := {
  f0 : F;
  f1 : F;
  f2 : F;
  fpi : F;
  fadd : F -> F -> F;
  fsub : F -> F -> F;
  fmul : F -> F -> F;
  fdiv : F -> F -> F;
  fmod : F -> F -> F;
  feqb : F -> F -> bool;
  fltb : F -> F -> bool
}.

Notation "x + y" := (fadd x y) : py_scope.
Notation "x - y" := (fsub x y) : py_scope.
Notation "x * y" := (fmul x y) : py_scope.
Notation "x <? y" := (fltb x y) : py_scope.
Notation "x >? y" := (fltb y x) : py_scope.
Notation "x == y" := (feqb x y) (at level 70, no associativity) : py_scope.

Local Open Scope py_scope.

(** [x / y]: CPython's [float_div] raises when the divisor compares equal
    to zero (so also for [-0.0]) and divides otherwise. *)
Definition truediv {F : Type} `{Num F} (x y : F) : result F :=
  if y == f0 then Raise ZeroDivisionError else Ok (fdiv x y).

(** [x % y]: likewise for CPython's [float_rem]. *)
Definition pymod {F : Type} `{Num F} (x y : F) : result F :=
  if y == f0 then Raise ZeroDivisionError else Ok (fmod x y).

Notation "x / y" := (truediv x y) : py_scope.
Notation "x %% y" := (pymod x y) (at level 40, left associativity) : py_scope.

(** *** Binary64 *)

(** C's [fmod] on binary64: the exact remainder of the truncated division,
    with the sign of [x]; it is always representable. *)
Definition c_fmod (x y : float) : float :=
  match Prim2SF x, Prim2SF y with
  | S754_nan, _ | _, S754_nan => nan
  | S754_infinity _, _ => nan
  | _, S754_zero _ => nan
  | S754_zero _, _ => x
  | S754_finite _ _ _, S754_infinity _ => x
  | S754_finite sx mx ex, S754_finite _ my ey =>
      let e := Z.min ex ey in
      match Z.rem (Zpos mx * 2 ^ (ex - e)) (Zpos my * 2 ^ (ey - e)) with
      | Zpos p => SF2Prim (S754_finite sx p e)
      | _ => if sx then neg_zero else zero
      end
  end.

(** CPython's [float_rem] past its zero check: [fmod], then the result is
    given the sign of the divisor. *)
Definition float_rem (vx wx : float) : float :=
  let md := c_fmod vx wx in
  if PrimFloat.eqb md 0
  then (if get_sign wx then neg_zero else zero)
  else if xorb (PrimFloat.ltb wx 0) (PrimFloat.ltb md 0)
       then PrimFloat.add md wx
       else md.

(** [fpi] is the double nearest to pi, [3.141592653589793]. *)
#[global] Instance float_Num : Num float := {|
  f0 := 0%float;
  f1 := 1%float;
  f2 := 2%float;
  fpi := 0x1.921fb54442d18p+1%float;
  fadd := PrimFloat.add;
  fsub := PrimFloat.sub;
  fmul := PrimFloat.mul;
  fdiv := PrimFloat.div;
  fmod := float_rem;
  feqb := PrimFloat.eqb;
  fltb := PrimFloat.ltb
|}.

(** [0.01] and [0.3] as Python reads them: the nearest doubles. *)
Definition centi : float := 0x1.47ae147ae147bp-7%float.
Definition three_tenths : float := 0x1.3333333333333p-2%float.

(** *** Exact arithmetic *)

(** [x % y] is [x - y * floor (x / y)]. *)
#[global] Instance R_Num : Num R := {|
  f0 := 0%R;
  f1 := 1%R;
  f2 := 2%R;
  fpi := PI;
  fadd := Rplus;
  fsub := Rminus;
  fmul := Rmult;
  fdiv := Rdiv;
  fmod := fun x y => (x - y * IZR (Int_part (x / y)))%R;
  feqb := fun x y => if Req_dec_T x y then true else false;
  fltb := fun x y => if Rlt_dec x y then true else false
|}.

(** ** filters.py *)

(** *** class Filter

    The interface: [filter(value, dt)], and [__call__], which delegates to
    it.  The base class's own [filter] raises NotImplementedError; every
    class below overrides it. *)
Class Filter (F T : Type) : Type := {
  filter : F -> F -> M T F
}.

Definition __call__ {F T : Type} `{Filter F T} (value dt : F) : M T F :=
  filter value dt.

(** *** class _SingleCutoffFreqFilter(Filter)

    The base class of the two one-pole filters.  It owns [_cutoff_freq] and
    [_prev_output]; [Attributes T] locates them in a subclass object [T].
    [filter] is written once, over the [_filter] of the subclass. *)
Module SingleCutoffFreqFilter.
Section Base.
Context {F : Type} `{Num F}.

Class Attributes (T : Type) : Type := {
  _cutoff_freq : T -> F;
  set__cutoff_freq : F -> T -> T;
  set__prev_output : F -> T -> T
}.

Definition _check_cutoff_freq (cutoff_freq : F) : result unit :=
  if cutoff_freq <? f0 then Raise ValueError else Ok tt.

Section Methods.
Context {T : Type} `{Attributes T}.

Definition get_cutoff_freq : M T F := gets _cutoff_freq.

Definition set_cutoff_freq (cutoff_freq : F) : M T unit :=
  lift (_check_cutoff_freq cutoff_freq) ;;
  modify (set__cutoff_freq cutoff_freq).

Definition filter (_filter : F -> F -> M T F) (value dt : F) : M T F :=
  output <- _filter value dt ;;
  modify (set__prev_output output) ;;
  ret output.
End Methods.
End Base.
End SingleCutoffFreqFilter.

(** *** class LowPassFilter(_SingleCutoffFreqFilter) *)
Module LowPassFilter.
Section Defs.
Context {F : Type} `{Num F}.

Record t : Type := mk {
  _cutoff_freq : F;
  _prev_output : F
}.

#[global] Instance attributes : SingleCutoffFreqFilter.Attributes t := {|
  SingleCutoffFreqFilter._cutoff_freq := _cutoff_freq;
  SingleCutoffFreqFilter.set__cutoff_freq :=
    fun c self => {| _cutoff_freq := c; _prev_output := _prev_output self |};
  SingleCutoffFreqFilter.set__prev_output :=
    fun o self => {| _cutoff_freq := _cutoff_freq self; _prev_output := o |}
|}.

Definition get_cutoff_freq : M t F := SingleCutoffFreqFilter.get_cutoff_freq.

Definition set_cutoff_freq : F -> M t unit :=
  SingleCutoffFreqFilter.set_cutoff_freq.

Definition _get_alpha (dt : F) : M t F :=
  cutoff_freq <- get_cutoff_freq ;;
  let a := f2 * fpi * dt * cutoff_freq in
  lift (a / (a + f1)).

Definition _filter (value dt : F) : M t F :=
  alpha <- _get_alpha dt ;;
  prev_output <- gets _prev_output ;;
  ret (alpha * value + (f1 - alpha) * prev_output).

#[global] Instance is_filter : Filter F t :=
  @Build_Filter F t (SingleCutoffFreqFilter.filter _filter).

(** [__init__(cutoff_freq, init_value=0.0)].  The source first binds
    [_cutoff_freq] to [None] and then calls [set_cutoff_freq]; the
    placeholder is never read, and when the setter raises no object is
    returned, so construction is the setter's check followed by the two
    assignments. *)
Definition __init__ (cutoff_freq init_value : F) : result t :=
  SingleCutoffFreqFilter._check_cutoff_freq cutoff_freq ;;r
  Ok {| _cutoff_freq := cutoff_freq; _prev_output := init_value |}.
End Defs.
Arguments t F : clear implicits.
End LowPassFilter.

(** *** class HighPassFilter(_SingleCutoffFreqFilter) *)
Module HighPassFilter.
Section Defs.
Context {F : Type} `{Num F}.

Record t : Type := mk {
  _cutoff_freq : F;
  _prev_output : F;
  _prev_value : F
}.

Definition set__prev_value (v : F) (self : t) : t :=
  {| _cutoff_freq := _cutoff_freq self;
     _prev_output := _prev_output self;
     _prev_value := v |}.

#[global] Instance attributes : SingleCutoffFreqFilter.Attributes t := {|
  SingleCutoffFreqFilter._cutoff_freq := _cutoff_freq;
  SingleCutoffFreqFilter.set__cutoff_freq :=
    fun c self => {| _cutoff_freq := c;
                     _prev_output := _prev_output self;
                     _prev_value := _prev_value self |};
  SingleCutoffFreqFilter.set__prev_output :=
    fun o self => {| _cutoff_freq := _cutoff_freq self;
                     _prev_output := o;
                     _prev_value := _prev_value self |}
|}.

Definition get_cutoff_freq : M t F := SingleCutoffFreqFilter.get_cutoff_freq.

Definition set_cutoff_freq : F -> M t unit :=
  SingleCutoffFreqFilter.set_cutoff_freq.

Definition _get_alpha (dt : F) : M t F :=
  cutoff_freq <- get_cutoff_freq ;;
  lift (f1 / (f2 * fpi * dt * cutoff_freq + f1)).

Definition _filter (value dt : F) : M t F :=
  prev_value <- gets _prev_value ;;
  let d_value := value - prev_value in
  modify (set__prev_value value) ;;
  alpha <- _get_alpha dt ;;
  prev_output <- gets _prev_output ;;
  ret (alpha * (prev_output + d_value)).

#[global] Instance is_filter : Filter F t :=
  @Build_Filter F t (SingleCutoffFreqFilter.filter _filter).

(** [__init__(cutoff_freq, init_value=0.0)]: the base constructor, then
    [_prev_value = init_value]. *)
Definition __init__ (cutoff_freq init_value : F) : result t :=
  SingleCutoffFreqFilter._check_cutoff_freq cutoff_freq ;;r
  Ok {| _cutoff_freq := cutoff_freq;
        _prev_output := init_value;
        _prev_value := init_value |}.
End Defs.
Arguments t F : clear implicits.
End HighPassFilter.

(** *** class _LowHighCutoffFreqsFilter(Filter)

    The base class of the two composite filters: it checks the order of
    the two cutoff frequencies and stores nothing. *)
Module LowHighCutoffFreqsFilter.
Section Defs.
Context {F : Type} `{Num F}.

Definition _check_cutoff_freqs (low_cutoff_freq high_cutoff_freq : F)
    : result unit :=
  if low_cutoff_freq >? high_cutoff_freq then Raise ValueError else Ok tt.

Definition __init__ (low_cutoff_freq high_cutoff_freq : F) : result unit :=
  _check_cutoff_freqs low_cutoff_freq high_cutoff_freq.

Definition set_cutoff_freqs {T : Type} (low_cutoff_freq high_cutoff_freq : F)
    : M T unit :=
  lift (_check_cutoff_freqs low_cutoff_freq high_cutoff_freq).
End Defs.
End LowHighCutoffFreqsFilter.

(** *** class BandPassFilter(_LowHighCutoffFreqsFilter) *)
Module BandPassFilter.
Section Defs.
Context {F : Type} `{Num F}.

Record t : Type := mk {
  _hpf : HighPassFilter.t F;
  _lpf : LowPassFilter.t F
}.

Definition set__hpf (h : HighPassFilter.t F) (self : t) : t :=
  {| _hpf := h; _lpf := _lpf self |}.

Definition set__lpf (l : LowPassFilter.t F) (self : t) : t :=
  {| _hpf := _hpf self; _lpf := l |}.

Definition __init__ (low_cutoff_freq high_cutoff_freq init_value : F)
    : result t :=
  LowHighCutoffFreqsFilter.__init__ low_cutoff_freq high_cutoff_freq ;;r
  hpf <-r HighPassFilter.__init__ low_cutoff_freq init_value ;;
  lpf <-r LowPassFilter.__init__ high_cutoff_freq init_value ;;
  Ok {| _hpf := hpf; _lpf := lpf |}.

Definition set_cutoff_freqs (low_cutoff_freq high_cutoff_freq : F)
    : M t unit :=
  LowHighCutoffFreqsFilter.set_cutoff_freqs low_cutoff_freq high_cutoff_freq ;;
  zoom _hpf set__hpf (HighPassFilter.set_cutoff_freq low_cutoff_freq) ;;
  zoom _lpf set__lpf (LowPassFilter.set_cutoff_freq high_cutoff_freq).

Definition filter (value dt : F) : M t F :=
  value <- zoom _hpf set__hpf (__call__ value dt) ;;
  value <- zoom _lpf set__lpf (__call__ value dt) ;;
  ret value.

#[global] Instance is_filter : Filter F t := @Build_Filter F t filter.
End Defs.
Arguments t F : clear implicits.
End BandPassFilter.

(** *** class BandStopFilter(_LowHighCutoffFreqsFilter) *)
Module BandStopFilter.
Section Defs.
Context {F : Type} `{Num F}.

Record t : Type := mk {
  _lpf : LowPassFilter.t F;
  _hpf : HighPassFilter.t F
}.

Definition set__lpf (l : LowPassFilter.t F) (self : t) : t :=
  {| _lpf := l; _hpf := _hpf self |}.

Definition set__hpf (h : HighPassFilter.t F) (self : t) : t :=
  {| _lpf := _lpf self; _hpf := h |}.

Definition __init__ (low_cutoff_freq high_cutoff_freq init_value : F)
    : result t :=
  LowHighCutoffFreqsFilter.__init__ low_cutoff_freq high_cutoff_freq ;;r
  lpf <-r LowPassFilter.__init__ low_cutoff_freq init_value ;;
  hpf <-r HighPassFilter.__init__ high_cutoff_freq init_value ;;
  Ok {| _lpf := lpf; _hpf := hpf |}.

Definition set_cutoff_freqs (low_cutoff_freq high_cutoff_freq : F)
    : M t unit :=
  LowHighCutoffFreqsFilter.set_cutoff_freqs low_cutoff_freq high_cutoff_freq ;;
  zoom _lpf set__lpf (LowPassFilter.set_cutoff_freq low_cutoff_freq) ;;
  zoom _hpf set__hpf (HighPassFilter.set_cutoff_freq high_cutoff_freq).

(** The left operand of [+] is evaluated first. *)
Definition filter (value dt : F) : M t F :=
  l <- zoom _lpf set__lpf (__call__ value dt) ;;
  h <- zoom _hpf set__hpf (__call__ value dt) ;;
  ret (l + h).

#[global] Instance is_filter : Filter F t := @Build_Filter F t filter.
End Defs.
Arguments t F : clear implicits.
End BandStopFilter.

(** *** Driving a filter from a control loop

    The control loop calls the filter once per [(value, dt)] pair and
    collects the outputs; an exception ends the loop.  The trace of a run is
    the list of outputs produced, and the exception that ended it, if any. *)
Definition trace (F : Type) : Type := (list F * option exn)%type.

Fixpoint feed {F T : Type} `{Filter F T} (inputs : list (F * F)) (self : T)
    : trace F :=
  match inputs with
  | [] => ([], None)
  | (value, dt) :: rest =>
      match __call__ value dt self with
      | (Raise e, _) => ([], Some e)
      | (Ok output, self') =>
          let (outputs, e) := feed rest self' in (output :: outputs, e)
      end
  end.

(** Construct, then run: the trace of a freshly constructed filter, or the
    exception of its constructor. *)
Definition fresh_run {F T : Type} `{Filter F T} (new : result T)
    (inputs : list (F * F)) : result (trace F) :=
  self <-r new ;; Ok (feed inputs self).

(** A run that was constructed and raised nothing. *)
Definition completes {F : Type} (r : result (trace F)) : bool :=
  match r with
  | Ok (_, None) => true
  | _ => false
  end.

(** *** The composition laws, as the specification words them

    The two composite filters are compared with what the specification
    says they compute, written here without reference to their code. *)
Section CompositionLaws.
Context {F : Type} `{Num F}.

(** Band-pass: every value goes through a high-pass filter and the
    high-pass output goes, with the same [dt], through a low-pass filter.
    The high-pass filter is run over the whole input first; the low-pass
    filter then consumes the outputs it produced.  The run ends at the
    first exception of either filter. *)
Definition cascade (hpf : HighPassFilter.t F) (lpf : LowPassFilter.t F)
    (inputs : list (F * F)) : trace F :=
  let (hs, eh) := feed inputs hpf in
  let (outputs, el) := feed (combine hs (map snd inputs)) lpf in
  (outputs, match el with Some e => Some e | None => eh end).

Definition cascade_of_fresh (low high init_value : F)
    (inputs : list (F * F)) : result (trace F) :=
  hpf <-r HighPassFilter.__init__ low init_value ;;
  lpf <-r LowPassFilter.__init__ high init_value ;;
  Ok (cascade hpf lpf inputs).

(** Band-stop: a low-pass and a high-pass filter are each run over the raw
    input on their own, and the two output sequences are added element by
    element.  The sum ends where the first of the two runs ends; when both
    end at the same call the low-pass filter, which is called first, is the
    one that raised. *)
Fixpoint add_traces (ls : list F) (el : option exn) (hs : list F)
    (eh : option exn) : trace F :=
  match ls, hs with
  | l :: ls', h :: hs' =>
      let (outputs, e) := add_traces ls' el hs' eh in (l + h :: outputs, e)
  | [], _ => ([], match el with Some e => Some e | None => eh end)
  | _ :: _, [] => ([], eh)
  end.

Definition parallel_sum (lpf : LowPassFilter.t F) (hpf : HighPassFilter.t F)
    (inputs : list (F * F)) : trace F :=
  let (ls, el) := feed inputs lpf in
  let (hs, eh) := feed inputs hpf in
  add_traces ls el hs eh.

Definition parallel_sum_of_fresh (low high init_value : F)
    (inputs : list (F * F)) : result (trace F) :=
  lpf <-r LowPassFilter.__init__ low init_value ;;
  hpf <-r HighPassFilter.__init__ high init_value ;;
  Ok (parallel_sum lpf hpf inputs).
End CompositionLaws.

(** ** generators.py *)

(** *** class PeriodicSignalGenerator(SignalGenerator) *)
Module PeriodicSignalGenerator.
Section Defs.
Context {F : Type} `{Num F}.

Record t : Type := mk {
  _freq : F;
  _t : F
}.

Definition set__freq (freq : F) (self : t) : t :=
  {| _freq := freq; _t := _t self |}.

Definition set__t (t' : F) (self : t) : t :=
  {| _freq := _freq self; _t := t' |}.

Definition _validate_freq (freq : F) : result unit :=
  if freq <? f0 then Raise ValueError else Ok tt.

Definition get_freq : M t F := gets _freq.

Definition set_freq (freq : F) : M t unit :=
  lift (_validate_freq freq) ;;
  modify (set__freq freq).

Definition get_period : M t F :=
  freq <- get_freq ;;
  lift (f1 / freq).

Definition set_period (period : F) : M t unit :=
  freq <- lift (f1 / period) ;;
  set_freq freq.

(** [__init__(freq=None, period=None)].  After the two checks on which
    arguments are given, the source binds [_freq] to [None], calls
    [set_freq] or [set_period], and sets [_t = 0.0]; the placeholder is never
    read and an exception leaves no object, so the setter appears here as its
    check and its assignment.  The source's last branch, raising
    RuntimeError, cannot be reached. *)
Definition __init__ (freq period : option F) : result t :=
  match freq, period with
  | None, None => Raise ValueError
  | Some _, Some _ => Raise ValueError
  | Some freq, None =>
      _validate_freq freq ;;r
      Ok {| _freq := freq; _t := f0 |}
  | None, Some period =>
      freq <-r f1 / period ;;
      _validate_freq freq ;;r
      Ok {| _freq := freq; _t := f0 |}
  end.

Definition _update_time (dt : F) : M t unit :=
  modify (fun self => set__t (_t self + dt) self).
End Defs.
Arguments t F : clear implicits.
End PeriodicSignalGenerator.

(** *** class PeriodicSignalGeneratorWithDutyCycle(PeriodicSignalGenerator)

    The object is the base-class object extended with [_duty_cycle];
    inherited methods run on the base part. *)
Module PeriodicSignalGeneratorWithDutyCycle.
Section Defs.
Context {F : Type} `{Num F}.

Record t : Type := mk {
  super : PeriodicSignalGenerator.t F;
  _duty_cycle : F
}.

Definition set_super (b : PeriodicSignalGenerator.t F) (self : t) : t :=
  {| super := b; _duty_cycle := _duty_cycle self |}.

Definition set__duty_cycle (d : F) (self : t) : t :=
  {| super := super self; _duty_cycle := d |}.

Definition inherited {A : Type} (m : M (PeriodicSignalGenerator.t F) A)
    : M t A :=
  zoom super set_super m.

Definition _validate_duty_cycle (duty_cycle : F) : result unit :=
  if (duty_cycle <? f0) || (duty_cycle >? f1)
  then Raise ValueError
  else Ok tt.

Definition get_duty_cycle : M t F := gets _duty_cycle.

Definition set_duty_cycle (duty_cycle : F) : M t unit :=
  lift (_validate_duty_cycle duty_cycle) ;;
  modify (set__duty_cycle duty_cycle).

(** [__init__(freq=None, period=None, duty_cycle=0.5)]. *)
Definition __init__ (freq period : option F) (duty_cycle : F) : result t :=
  base <-r PeriodicSignalGenerator.__init__ freq period ;;
  _validate_duty_cycle duty_cycle ;;r
  Ok {| super := base; _duty_cycle := duty_cycle |}.

Definition _get_period_fraction : M t F :=
  period <- inherited PeriodicSignalGenerator.get_period ;;
  t_now <- gets (fun self => PeriodicSignalGenerator._t (super self)) ;;
  t_in_period <- lift (t_now %% period) ;;
  fraction <- lift (t_in_period / period) ;;
  ret fraction.

Definition _is_in_duty_cycle : M t bool :=
  period_fraction <- _get_period_fraction ;;
  duty_cycle <- get_duty_cycle ;;
  ret (period_fraction <? duty_cycle).

(** [PeriodicSignalGenerator.sample], with the subclass's [_get_sample]. *)
Definition sample_with (_get_sample : M t F) (dt : F) : M t F :=
  inherited (PeriodicSignalGenerator._update_time dt) ;;
  _get_sample.
End Defs.
Arguments t F : clear implicits.
End PeriodicSignalGeneratorWithDutyCycle.

(** *** class SquareWaveGenerator(PeriodicSignalGeneratorWithDutyCycle) *)
Module SquareWaveGenerator.
Section Defs.
Context {F : Type} `{Num F}.
Import PeriodicSignalGeneratorWithDutyCycle.

Definition _get_sample : M (t F) F :=
  b <- _is_in_duty_cycle ;;
  ret (if b then f1 else f0).

Definition sample : F -> M (t F) F := sample_with _get_sample.
End Defs.
End SquareWaveGenerator.

(** *** class TriangleWaveGenerator(PeriodicSignalGeneratorWithDutyCycle) *)
Module TriangleWaveGenerator.
Section Defs.
Context {F : Type} `{Num F}.
Import PeriodicSignalGeneratorWithDutyCycle.

Definition _get_upswing : M (t F) F :=
  period_fraction <- _get_period_fraction ;;
  duty_cycle <- get_duty_cycle ;;
  duty_cycle_fraction <- lift (period_fraction / duty_cycle) ;;
  ret duty_cycle_fraction.

Definition _get_downswing : M (t F) F :=
  period_fraction <- _get_period_fraction ;;
  let remaining_period_fraction := f1 - period_fraction in
  duty_cycle <- get_duty_cycle ;;
  let off_cycle := f1 - duty_cycle in
  lift (remaining_period_fraction / off_cycle).

Definition _get_sample : M (t F) F :=
  b <- _is_in_duty_cycle ;;
  if b then _get_upswing else _get_downswing.

Definition sample : F -> M (t F) F := sample_with _get_sample.
End Defs.
End TriangleWaveGenerator.

(** *** class RandomSignalGenerator(SignalGenerator)

    The random source is kept symbolic: which generator class was chosen
    and, for [random.Random], the seed it was given ([None] when it seeded
    itself).  [random.SystemRandom.seed] does nothing. *)
Module RandomSignalGenerator.

Inductive rng : Set :=
| Random (seed : option Z)
| SystemRandom.

Definition seed (a : Z) (r : rng) : rng :=
  match r with
  | Random _ => Random (Some a)
  | SystemRandom => SystemRandom
  end.

Definition _set_rng (randomness : string) : result rng :=
  if String.eqb randomness "pseudo" then Ok (Random None)
  else if String.eqb randomness "true" then Ok SystemRandom
  else Raise ValueError.

(** [__init__(seed=None, randomness='pseudo')]: the object's [_rng]. *)
Definition __init__ (seed_arg : option Z) (randomness : string) : result rng :=
  _rng <-r _set_rng randomness ;;
  Ok match seed_arg with
     | Some a => seed a _rng
     | None => _rng
     end.
End RandomSignalGenerator.

(** *** class UniformRandomSignalGenerator(RandomSignalGenerator) *)
Module UniformRandomSignalGenerator.
Section Defs.
Context {F : Type}.

Record t : Type := mk {
  _rng : RandomSignalGenerator.rng;
  low : F;
  high : F
}.

(** [__init__(low=0.0, high=1.0, seed=None, randomness='pseudo')]. *)
Definition __init__ (low high : F) (seed : option Z) (randomness : string)
    : result t :=
  rng <-r RandomSignalGenerator.__init__ seed randomness ;;
  Ok {| _rng := rng; low := low; high := high |}.
End Defs.
Arguments t F : clear implicits.
End UniformRandomSignalGenerator.

(** *** class SignalGenerator: [sample_iter] with a count

    [sample_iter(dt, sample_count)] with a count delegates to
    [_sample_count], which samples once per item the consumer takes, up to
    [range(sample_count)] items (none when the count is not positive).  The
    function below is the generator consumed to its end: the samples
    produced, the exception that ended it, if any, and the object as it is
    left.  [sample] is the method of the concrete class.  Without a count
    the iterator never ends ([_sample_forever]); that case is not
    modelled. *)
Module SignalGenerator.
Section Defs.
Context {F T : Type}.
Variable sample : F -> M T F.

Fixpoint _sample_range (dt : F) (n : nat) (self : T)
    : list F * option exn * T :=
  match n with
  | O => ([], None, self)
  | S n' =>
      match sample dt self with
      | (Raise e, self') => ([], Some e, self')
      | (Ok value, self') =>
          let '(values, e, self'') := _sample_range dt n' self' in
          (value :: values, e, self'')
      end
  end.

Definition _sample_count (dt : F) (sample_count : Z) (self : T)
    : list F * option exn * T :=
  _sample_range dt (Z.to_nat sample_count) self.
End Defs.
End SignalGenerator.

(** *** class SineWaveGenerator(PeriodicSignalGenerator)

    [math.sin] is one more float operation, [fsin].  It is interpreted over
    the reals only: in binary64 [math.sin] is the platform's, whose rounding
    is not fixed, and it raises [ValueError] at an infinity. *)
Class Sin (F : Type) : Type := {
  fsin : F -> F
}.

#[global] Instance R_Sin : Sin R := {| fsin := sin |}.

Module SineWaveGenerator.
Section Defs.
Context {F : Type} `{Num F} `{Sin F}.
Import PeriodicSignalGenerator.

Definition _get_sample : M (t F) F :=
  freq <- gets _freq ;;
  t_now <- gets _t ;;
  ret (fsin (f2 * fpi * freq * t_now)).

(** [PeriodicSignalGenerator.sample]. *)
Definition sample (dt : F) : M (t F) F :=
  _update_time dt ;;
  _get_sample.
End Defs.
End SineWaveGenerator.

(** *** class GaussianRandomSignalGenerator(RandomSignalGenerator) *)
Module GaussianRandomSignalGenerator.
Section Defs.
Context {F : Type}.

Record t : Type := mk {
  _rng : RandomSignalGenerator.rng;
  mean : F;
  std_dev : F
}.

(** [__init__(mean=0.0, std_dev=1.0, seed=None, randomness='pseudo')]. *)
Definition __init__ (mean std_dev : F) (seed : option Z)
    (randomness : string) : result t :=
  rng <-r RandomSignalGenerator.__init__ seed randomness ;;
  Ok {| _rng := rng; mean := mean; std_dev := std_dev |}.
End Defs.
Arguments t F : clear implicits.
End GaussianRandomSignalGenerator.

(** ** The life of a filter

    What a caller does with a filter after constructing it: re-tune it or
    feed it a value, any number of times, carrying on with the same object
    when a call raises. *)
Inductive filter_call (F : Type) : Type :=
| Retune (cutoff_freq : F)
| Retune_band (low_cutoff_freq high_cutoff_freq : F)
| Feed (value dt : F).

Arguments Retune {F} cutoff_freq.
Arguments Retune_band {F} low_cutoff_freq high_cutoff_freq.
Arguments Feed {F} value dt.

(** The object after one call on a one-pole filter ([Retune_band] is not
    a method of it and leaves it alone). *)
Definition after_single_call {F T : Type} `{Num F}
    `{SingleCutoffFreqFilter.Attributes F T} `{Filter F T}
    (self : T) (c : filter_call F) : T :=
  match c with
  | Retune cutoff_freq =>
      snd (SingleCutoffFreqFilter.set_cutoff_freq cutoff_freq self)
  | Retune_band _ _ => self
  | Feed value dt => snd (__call__ value dt self)
  end.

(** The two composite filters share [set_cutoff_freqs]. *)
Class Band (F T : Type) : Type := {
  set_cutoff_freqs : F -> F -> M T unit
}.

#[global] Instance bandpass_Band {F : Type} `{Num F}
    : Band F (BandPassFilter.t F) :=
  @Build_Band F (BandPassFilter.t F) BandPassFilter.set_cutoff_freqs.

#[global] Instance bandstop_Band {F : Type} `{Num F}
    : Band F (BandStopFilter.t F) :=
  @Build_Band F (BandStopFilter.t F) BandStopFilter.set_cutoff_freqs.

(** The object after one call on a composite filter ([Retune] is not a
    method of it and leaves it alone). *)
Definition after_band_call {F T : Type} `{Band F T} `{Filter F T}
    (self : T) (c : filter_call F) : T :=
  match c with
  | Retune _ => self
  | Retune_band low high => snd (set_cutoff_freqs low high self)
  | Feed value dt => snd (__call__ value dt self)
  end.

(** ** Vocabulary of the further properties *)

(** The cutoff frequencies a composite filter holds: low, then high. *)
Definition bandpass_cutoffs {F : Type} (self : BandPassFilter.t F) : F * F :=
  (HighPassFilter._cutoff_freq (BandPassFilter._hpf self),
   LowPassFilter._cutoff_freq (BandPassFilter._lpf self)).

Definition bandstop_cutoffs {F : Type} (self : BandStopFilter.t F) : F * F :=
  (LowPassFilter._cutoff_freq (BandStopFilter._lpf self),
   HighPassFilter._cutoff_freq (BandStopFilter._hpf self)).

(** Neither cutoff frequency is below zero, as the source tests it. *)
Definition nonnegative_pair {F : Type} `{Num F} (c : F * F) : Prop :=
  (fst c <? f0) = false /\ (snd c <? f0) = false.

(** An ordered, non-negative pair of cutoff frequencies. *)
Definition is_band (c : R * R) : Prop := (0 <= fst c <= snd c)%R.

(** The two smoothing coefficients as functions of cutoff and [dt]. *)
Definition lowpass_alpha (c dt : R) : R :=
  (2 * PI * dt * c / (2 * PI * dt * c + 1))%R.

Definition highpass_alpha (c dt : R) : R :=
  (1 / (2 * PI * dt * c + 1))%R.

(** Every [dt] of the input sequence is non-negative. *)
Definition time_moves_forward (inputs : list (R * R)) : Prop :=
  Forall (fun input => (0 <= snd input)%R) inputs.

(** The [k]-th output, counting from 0, of a low-pass filter that held [p]
    and is fed the constant [value]: the distance to [value] shrinks by
    [1 - alpha] with every call. *)
Definition lowpass_settling (alpha p value : R) (k : nat) : R :=
  (value + (1 - alpha) ^ S k * (p - value))%R.

(** The [k]-th output of a high-pass filter after its input stepped from
    [v] to [value] and stays there: the step decays by [alpha] with every
    call. *)
Definition highpass_decay (alpha p v value : R) (k : nat) : R :=
  (alpha ^ S k * (p + (value - v)))%R.

(** A duty-cycle generator with its clock advanced by [dt]. *)
Definition advanced {F : Type} `{Num F} (dt : F)
    (self : PeriodicSignalGeneratorWithDutyCycle.t F)
    : PeriodicSignalGeneratorWithDutyCycle.t F :=
  PeriodicSignalGeneratorWithDutyCycle.mk
    (PeriodicSignalGenerator.mk
       (PeriodicSignalGenerator._freq
          (PeriodicSignalGeneratorWithDutyCycle.super self))
       (PeriodicSignalGenerator._t
          (PeriodicSignalGeneratorWithDutyCycle.super self) + dt))
    (PeriodicSignalGeneratorWithDutyCycle._duty_cycle self).

(** The fraction of the period elapsed at time [t_now], in exact
    arithmetic: the fractional part of [t_now / period]. *)
Definition period_fraction (freq t_now : R) : R :=
  (t_now / (1 / freq) - IZR (Int_part (t_now / (1 / freq))))%R.

(** What the triangle wave returns at period fraction [pf]. *)
Definition triangle_value (d pf : R) : R :=
  if Rlt_dec pf d then (pf / d)%R else ((1 - pf) / (1 - d))%R.

(** The binary64 number closest to [-1 / (2*pi)]: the [dt] at which a
    filter of cutoff frequency 1.0 divides by zero. *)
Definition minus_inverse_two_pi : float := (-0x1.45f306dc9c883p-3)%float.

(** Three control-loop ticks, used to run the filters below. *)
Definition three_inputs : list (float * float) :=
  [(100, centi); (50, centi); (3, 2 * centi)]%float.

(** * Properties *)

(** Unfolds the plumbing of a method body. *)
Ltac run_method := unfold bind, gets, modify, lift, ret, zoom.

(** ** Comparisons

    The source guards with [<] and [>] only.  In both interpretations
    [x <= y] makes the guard [x > y] false (in binary64 the guard is also
    false when either side is NaN). *)
Section Comparisons.

Lemma SFcompare_swap (x y : spec_float) :
  SFcompare y x = option_map CompOpp (SFcompare x y).
Proof.
  destruct x as [sx | sx | | sx mx ex], y as [sy | sy | | sy my ey];
    try reflexivity;
    try (destruct sx; reflexivity);
    try (destruct sy; reflexivity);
    try (destruct sx, sy; reflexivity).
  destruct sx, sy; cbn; try reflexivity;
    rewrite (Z.compare_antisym ex ey);
    destruct (ex ?= ey)%Z; cbn; try reflexivity;
    rewrite (Pos.compare_cont_antisym mx my Eq); reflexivity.
Qed.

Lemma binary64_le_not_gt (x y : float) :
  PrimFloat.leb x y = true -> (x >? y) = false.
Proof.
  cbn [fltb float_Num]. rewrite leb_spec, ltb_spec.
  unfold SFleb, SFltb. rewrite (SFcompare_swap (Prim2SF x) (Prim2SF y)).
  destruct (SFcompare (Prim2SF x) (Prim2SF y)) as [[ | | ] | ];
    cbn; congruence.
Qed.

Lemma exact_le_not_gt (x y : R) : (x <= y)%R -> (x >? y) = false.
Proof.
  intros Hle. cbn [fltb R_Num].
  destruct (Rlt_dec y x) as [Hlt | _]; [ lra | reflexivity ].
Qed.
End Comparisons.

(** ** Runs of the composite filters *)
Section CompositeRuns.
Context {F : Type} `{Num F}.

Lemma feed_cons {T : Type} `{Filter F T} (value dt : F)
    (rest : list (F * F)) (self : T) :
  feed ((value, dt) :: rest) self =
  match filter value dt self with
  | (Raise e, _) => ([], Some e)
  | (Ok output, self') =>
      let (outputs, e) := feed rest self' in (output :: outputs, e)
  end.
Proof. reflexivity. Qed.

(** One call of the band-pass filter, in terms of its two sub-filters. *)
Lemma bandpass_call (value dt : F) (hpf : HighPassFilter.t F)
    (lpf : LowPassFilter.t F) :
  filter value dt (BandPassFilter.mk hpf lpf) =
  match filter value dt hpf with
  | (Raise e, hpf') => (Raise e, BandPassFilter.mk hpf' lpf)
  | (Ok v, hpf') =>
      match filter v dt lpf with
      | (Raise e, lpf') => (Raise e, BandPassFilter.mk hpf' lpf')
      | (Ok w, lpf') => (Ok w, BandPassFilter.mk hpf' lpf')
      end
  end.
Proof.
  change (filter value dt (BandPassFilter.mk hpf lpf))
    with (BandPassFilter.filter value dt (BandPassFilter.mk hpf lpf)).
  unfold BandPassFilter.filter, __call__. run_method.
  unfold BandPassFilter.set__hpf, BandPassFilter.set__lpf.
  cbn [BandPassFilter._hpf BandPassFilter._lpf].
  destruct (filter value dt hpf) as [[v | e] hpf']; [ | reflexivity ].
  cbn [BandPassFilter._hpf BandPassFilter._lpf].
  destruct (filter v dt lpf) as [[w | e] lpf']; reflexivity.
Qed.

Lemma feed_bandpass (inputs : list (F * F)) :
  forall (hpf : HighPassFilter.t F) (lpf : LowPassFilter.t F),
    feed inputs (BandPassFilter.mk hpf lpf) = cascade hpf lpf inputs.
Proof.
  induction inputs as [ | [value dt] rest IH ]; intros hpf lpf.
  - reflexivity.
  - unfold cascade. rewrite !feed_cons, bandpass_call.
    destruct (filter value dt hpf) as [[v | e] hpf']; [ | reflexivity ].
    specialize (IH hpf'). unfold cascade in IH.
    destruct (feed rest hpf') as [hs eh].
    cbn [map snd combine]. rewrite feed_cons.
    destruct (filter v dt lpf) as [[w | e] lpf']; [ | reflexivity ].
    rewrite IH.
    destruct (feed (combine hs (map snd rest)) lpf') as [outputs el].
    reflexivity.
Qed.

(** One call of the band-stop filter, in terms of its two sub-filters. *)
Lemma bandstop_call (value dt : F) (lpf : LowPassFilter.t F)
    (hpf : HighPassFilter.t F) :
  filter value dt (BandStopFilter.mk lpf hpf) =
  match filter value dt lpf with
  | (Raise e, lpf') => (Raise e, BandStopFilter.mk lpf' hpf)
  | (Ok l, lpf') =>
      match filter value dt hpf with
      | (Raise e, hpf') => (Raise e, BandStopFilter.mk lpf' hpf')
      | (Ok h, hpf') => (Ok (l + h), BandStopFilter.mk lpf' hpf')
      end
  end.
Proof.
  change (filter value dt (BandStopFilter.mk lpf hpf))
    with (BandStopFilter.filter value dt (BandStopFilter.mk lpf hpf)).
  unfold BandStopFilter.filter, __call__. run_method.
  unfold BandStopFilter.set__hpf, BandStopFilter.set__lpf.
  cbn [BandStopFilter._hpf BandStopFilter._lpf].
  destruct (filter value dt lpf) as [[l | e] lpf']; [ | reflexivity ].
  cbn [BandStopFilter._hpf BandStopFilter._lpf].
  destruct (filter value dt hpf) as [[h | e] hpf']; reflexivity.
Qed.

Lemma feed_bandstop (inputs : list (F * F)) :
  forall (lpf : LowPassFilter.t F) (hpf : HighPassFilter.t F),
    feed inputs (BandStopFilter.mk lpf hpf) = parallel_sum lpf hpf inputs.
Proof.
  induction inputs as [ | [value dt] rest IH ]; intros lpf hpf.
  - reflexivity.
  - unfold parallel_sum. rewrite !feed_cons, bandstop_call.
    destruct (filter value dt lpf) as [[l | e] lpf'].
    + specialize (IH lpf'). unfold parallel_sum in IH.
      destruct (feed rest lpf') as [ls el].
      destruct (filter value dt hpf) as [[h | e] hpf'].
      * rewrite IH. destruct (feed rest hpf') as [hs eh]. reflexivity.
      * reflexivity.
    + destruct (filter value dt hpf) as [[h | e'] hpf']; [ | reflexivity ].
      destruct (feed rest hpf') as [hs eh]. reflexivity.
Qed.
End CompositeRuns.

(** ** The filters, for every interpretation of the floats *)
Section FilterProperties.
Context {F : Type} `{Num F}.

Lemma check_cutoff_freq_negative (c : F) :
  (c <? f0) = true ->
  SingleCutoffFreqFilter._check_cutoff_freq c = Raise ValueError.
Proof. unfold SingleCutoffFreqFilter._check_cutoff_freq. now intros ->. Qed.

Lemma check_cutoff_freq_nonnegative (c : F) :
  (c <? f0) = false ->
  SingleCutoffFreqFilter._check_cutoff_freq c = Ok tt.
Proof. unfold SingleCutoffFreqFilter._check_cutoff_freq. now intros ->. Qed.

Lemma check_cutoff_freqs_unordered (low high : F) :
  (low >? high) = true ->
  LowHighCutoffFreqsFilter._check_cutoff_freqs low high = Raise ValueError.
Proof. unfold LowHighCutoffFreqsFilter._check_cutoff_freqs. now intros ->. Qed.

Lemma check_cutoff_freqs_ordered (low high : F) :
  (low >? high) = false ->
  LowHighCutoffFreqsFilter._check_cutoff_freqs low high = Ok tt.
Proof. unfold LowHighCutoffFreqsFilter._check_cutoff_freqs. now intros ->. Qed.

Lemma set_cutoff_freq_rejected {T : Type}
    `{SingleCutoffFreqFilter.Attributes F T} (c : F) (self : T) :
  (c <? f0) = true ->
  SingleCutoffFreqFilter.set_cutoff_freq c self = (Raise ValueError, self).
Proof.
  intros Hneg. unfold SingleCutoffFreqFilter.set_cutoff_freq. run_method.
  now rewrite (check_cutoff_freq_negative _ Hneg).
Qed.

Lemma set_cutoff_freq_accepted {T : Type}
    `{SingleCutoffFreqFilter.Attributes F T} (c : F) (self : T) :
  (c <? f0) = false ->
  SingleCutoffFreqFilter.set_cutoff_freq c self =
  (Ok tt, SingleCutoffFreqFilter.set__cutoff_freq c self).
Proof.
  intros Hpos. unfold SingleCutoffFreqFilter.set_cutoff_freq. run_method.
  now rewrite (check_cutoff_freq_nonnegative _ Hpos).
Qed.

Lemma set_cutoff_freq_outcome {T : Type}
    `{SingleCutoffFreqFilter.Attributes F T} (c : F) (self : T) :
  fst (SingleCutoffFreqFilter.set_cutoff_freq c self) = Ok tt ->
  snd (SingleCutoffFreqFilter.set_cutoff_freq c self) =
  SingleCutoffFreqFilter.set__cutoff_freq c self.
Proof.
  destruct (c <? f0) eqn:Hc.
  - rewrite (set_cutoff_freq_rejected _ _ Hc). discriminate.
  - now rewrite (set_cutoff_freq_accepted _ _ Hc).
Qed.

(** The low-pass step, used for claim C1 below. *)
Lemma lowpass_step (self : LowPassFilter.t F) (value dt alpha : F) :
  let c := LowPassFilter._cutoff_freq self in
  let p := LowPassFilter._prev_output self in
  let a := f2 * fpi * dt * c in
  a / (a + f1) = Ok alpha ->
  filter value dt self =
  (Ok (alpha * value + (f1 - alpha) * p),
   {| LowPassFilter._cutoff_freq := c;
      LowPassFilter._prev_output := alpha * value + (f1 - alpha) * p |}).
Proof.
  intros c p a Halpha.
  cbn [filter LowPassFilter.is_filter].
  unfold SingleCutoffFreqFilter.filter, LowPassFilter._filter,
    LowPassFilter._get_alpha, LowPassFilter.get_cutoff_freq,
    SingleCutoffFreqFilter.get_cutoff_freq.
  run_method.
  cbn [SingleCutoffFreqFilter._cutoff_freq LowPassFilter.attributes].
  fold c p a. rewrite Halpha. reflexivity.
Qed.

(** Claim C2, the step of the high-pass filter: for a filter with cutoff
    frequency [c], previous output [p] and previous input [v], whenever
    [alpha = 1 / (2*pi*dt*c + 1)] is defined (the denominator is not zero),
    [filter(value, dt)] returns [alpha * (p + (value - v))], sets
    [_prev_value] to [value] and [_prev_output] to the returned value, and
    keeps the cutoff frequency.  No bound on [c] is needed. *)
Theorem highpass_filter_step (self : HighPassFilter.t F)
    (value dt alpha : F) :
  let c := HighPassFilter._cutoff_freq self in
  let p := HighPassFilter._prev_output self in
  let v := HighPassFilter._prev_value self in
  f1 / (f2 * fpi * dt * c + f1) = Ok alpha ->
  filter value dt self =
  (Ok (alpha * (p + (value - v))),
   {| HighPassFilter._cutoff_freq := c;
      HighPassFilter._prev_output := alpha * (p + (value - v));
      HighPassFilter._prev_value := value |}).
Proof.
  intros c p v Halpha.
  cbn [filter HighPassFilter.is_filter].
  unfold SingleCutoffFreqFilter.filter, HighPassFilter._filter,
    HighPassFilter._get_alpha, HighPassFilter.get_cutoff_freq,
    SingleCutoffFreqFilter.get_cutoff_freq.
  run_method.
  cbn [SingleCutoffFreqFilter._cutoff_freq HighPassFilter.attributes
       HighPassFilter.set__prev_value HighPassFilter._cutoff_freq
       HighPassFilter._prev_output HighPassFilter._prev_value].
  fold c p v. rewrite Halpha. reflexivity.
Qed.

(** Claim C3, the band-pass composition law: when [low <= high] (the
    constructor's guard [low > high] is false), the run of a freshly
    constructed [BandPassFilter(low, high, init_value)] over any finite input
    sequence is the cascade of a fresh [HighPassFilter(low, init_value)] into
    a fresh [LowPassFilter(high, init_value)]: the same outputs in the same
    order, the same exception if one ends the run, and the same outcome of
    construction. *)
Theorem bandpass_is_highpass_then_lowpass (low high init_value : F)
    (inputs : list (F * F)) :
  (low >? high) = false ->
  fresh_run (BandPassFilter.__init__ low high init_value) inputs =
  cascade_of_fresh low high init_value inputs.
Proof.
  intros Hord.
  unfold fresh_run, cascade_of_fresh, BandPassFilter.__init__,
    LowHighCutoffFreqsFilter.__init__.
  rewrite (check_cutoff_freqs_ordered _ _ Hord). cbn [rbind].
  destruct (HighPassFilter.__init__ low init_value) as [hpf | e];
    [ | reflexivity ].
  cbn [rbind].
  destruct (LowPassFilter.__init__ high init_value) as [lpf | e];
    [ | reflexivity ].
  cbn [rbind]. now rewrite feed_bandpass.
Qed.

(** Claim C4, the band-stop composition law: when [low <= high] (the
    constructor's guard [low > high] is false), the run of a freshly
    constructed [BandStopFilter(low, high, init_value)] over any finite input
    sequence is the element-wise sum of the runs of a fresh
    [LowPassFilter(low, init_value)] and of a fresh
    [HighPassFilter(high, init_value)], each fed the raw input on its own. *)
Theorem bandstop_is_lowpass_plus_highpass (low high init_value : F)
    (inputs : list (F * F)) :
  (low >? high) = false ->
  fresh_run (BandStopFilter.__init__ low high init_value) inputs =
  parallel_sum_of_fresh low high init_value inputs.
Proof.
  intros Hord.
  unfold fresh_run, parallel_sum_of_fresh, BandStopFilter.__init__,
    LowHighCutoffFreqsFilter.__init__.
  rewrite (check_cutoff_freqs_ordered _ _ Hord). cbn [rbind].
  destruct (LowPassFilter.__init__ low init_value) as [lpf | e];
    [ | reflexivity ].
  cbn [rbind].
  destruct (HighPassFilter.__init__ high init_value) as [hpf | e];
    [ | reflexivity ].
  cbn [rbind]. now rewrite feed_bandstop.
Qed.

(** Claim C5, rejected calls change nothing: [set_cutoff_freq] with a
    negative value on a low-pass or high-pass filter, and [set_cutoff_freqs]
    with [low > high] on a band-pass or band-stop filter, raise [ValueError]
    and hand back the object with every attribute (for the composite
    filters, both sub-filters) as it was; the constructors given such
    arguments raise [ValueError] and yield no object. *)
Theorem rejected_calls_change_nothing :
  (forall (c : F) (self : LowPassFilter.t F),
      (c <? f0) = true ->
      LowPassFilter.set_cutoff_freq c self = (Raise ValueError, self))
  /\ (forall (c : F) (self : HighPassFilter.t F),
      (c <? f0) = true ->
      HighPassFilter.set_cutoff_freq c self = (Raise ValueError, self))
  /\ (forall (low high : F) (self : BandPassFilter.t F),
      (low >? high) = true ->
      BandPassFilter.set_cutoff_freqs low high self =
      (Raise ValueError, self))
  /\ (forall (low high : F) (self : BandStopFilter.t F),
      (low >? high) = true ->
      BandStopFilter.set_cutoff_freqs low high self =
      (Raise ValueError, self))
  /\ (forall c init_value : F,
      (c <? f0) = true ->
      LowPassFilter.__init__ c init_value = Raise ValueError
      /\ HighPassFilter.__init__ c init_value = Raise ValueError)
  /\ (forall low high init_value : F,
      (low >? high) = true ->
      BandPassFilter.__init__ low high init_value = Raise ValueError
      /\ BandStopFilter.__init__ low high init_value = Raise ValueError).
Proof.
  split; [ | split; [ | split; [ | split; [ | split ] ] ] ].
  - intros c self Hneg. now apply set_cutoff_freq_rejected.
  - intros c self Hneg. now apply set_cutoff_freq_rejected.
  - intros low high self Hgt.
    unfold BandPassFilter.set_cutoff_freqs,
      LowHighCutoffFreqsFilter.set_cutoff_freqs.
    run_method. now rewrite (check_cutoff_freqs_unordered _ _ Hgt).
  - intros low high self Hgt.
    unfold BandStopFilter.set_cutoff_freqs,
      LowHighCutoffFreqsFilter.set_cutoff_freqs.
    run_method. now rewrite (check_cutoff_freqs_unordered _ _ Hgt).
  - intros c init_value Hneg.
    unfold LowPassFilter.__init__, HighPassFilter.__init__.
    now rewrite (check_cutoff_freq_negative _ Hneg).
  - intros low high init_value Hgt.
    unfold BandPassFilter.__init__, BandStopFilter.__init__,
      LowHighCutoffFreqsFilter.__init__.
    now rewrite (check_cutoff_freqs_unordered _ _ Hgt).
Qed.

(** Claim C10, a live re-tune keeps the recursive state: a call of
    [set_cutoff_freq] that returns normally leaves a low-pass filter with
    the new cutoff frequency and its old [_prev_output], and a high-pass
    filter with the new cutoff frequency and its old [_prev_output] and
    [_prev_value]. *)
Theorem set_cutoff_freq_keeps_recursive_state :
  (forall (c : F) (self : LowPassFilter.t F),
      fst (LowPassFilter.set_cutoff_freq c self) = Ok tt ->
      snd (LowPassFilter.set_cutoff_freq c self) =
      {| LowPassFilter._cutoff_freq := c;
         LowPassFilter._prev_output := LowPassFilter._prev_output self |})
  /\ (forall (c : F) (self : HighPassFilter.t F),
      fst (HighPassFilter.set_cutoff_freq c self) = Ok tt ->
      snd (HighPassFilter.set_cutoff_freq c self) =
      {| HighPassFilter._cutoff_freq := c;
         HighPassFilter._prev_output := HighPassFilter._prev_output self;
         HighPassFilter._prev_value := HighPassFilter._prev_value self |}).
Proof.
  split; intros c self Hok.
  - exact (set_cutoff_freq_outcome c self Hok).
  - exact (set_cutoff_freq_outcome c self Hok).
Qed.
End FilterProperties.

(** ** The smoothing coefficients in exact arithmetic *)
Section ExactCoefficients.
Local Open Scope R_scope.

Lemma coefficient_facts (a : R) :
  0 <= a ->
  a + 1 <> 0 /\ 0 <= a / (a + 1) < 1 /\ 0 < 1 / (a + 1) <= 1.
Proof.
  intros Ha.
  assert (Hpos : 0 < a + 1) by lra.
  assert (Hx : 0 < / (a + 1)) by now apply Rinv_0_lt_compat.
  assert (Hm : (a + 1) * / (a + 1) = 1) by (apply Rinv_r; lra).
  assert (Hax : 0 <= a * / (a + 1))
    by (apply Rmult_le_pos; [ exact Ha | now apply Rlt_le ]).
  unfold Rdiv. rewrite Rmult_1_l.
  split; [ | split; split ]; lra.
Qed.

Lemma angular_product_nonneg (dt c : R) :
  0 <= c -> 0 < dt -> 0 <= 2 * PI * dt * c.
Proof.
  intros Hc Hdt. pose proof PI_RGT_0 as Hpi.
  apply Rmult_le_pos; [ apply Rmult_le_pos; [ | lra ] | exact Hc ].
  apply Rmult_le_pos; lra.
Qed.

End ExactCoefficients.

(** ** The generators' validation, for every interpretation of the floats *)
Section GeneratorValidation.
Context {F : Type} `{Num F}.

Lemma validate_freq_negative (freq : F) :
  (freq <? f0) = true ->
  PeriodicSignalGenerator._validate_freq freq = Raise ValueError.
Proof. unfold PeriodicSignalGenerator._validate_freq. now intros ->. Qed.

Lemma validate_freq_nonnegative (freq : F) :
  (freq <? f0) = false ->
  PeriodicSignalGenerator._validate_freq freq = Ok tt.
Proof. unfold PeriodicSignalGenerator._validate_freq. now intros ->. Qed.

(** Claim C7, as amended: a periodic generator is constructed from exactly
    one of [freq] and [period], both or neither raising [ValueError]; a
    period is first turned into the frequency [1.0 / period]; the frequency
    is checked against [freq < 0] only, so that a negative one raises
    [ValueError] and every other one, zero included, is stored (with
    [_t = 0.0]).  [set_freq] and [set_period] make the same check, a rejected
    call changing nothing, and [get_period] reads the one stored value back
    as [1.0 / freq]. *)
Theorem periodic_generator_validation :
  PeriodicSignalGenerator.__init__ (F := F) None None = Raise ValueError
  /\ (forall freq period : F,
      PeriodicSignalGenerator.__init__ (Some freq) (Some period) =
      Raise ValueError)
  /\ (forall freq : F,
      (freq <? f0) = true ->
      PeriodicSignalGenerator.__init__ (Some freq) None = Raise ValueError)
  /\ (forall freq : F,
      (freq <? f0) = false ->
      PeriodicSignalGenerator.__init__ (Some freq) None =
      Ok {| PeriodicSignalGenerator._freq := freq;
            PeriodicSignalGenerator._t := f0 |})
  /\ (forall period freq : F,
      f1 / period = Ok freq ->
      PeriodicSignalGenerator.__init__ None (Some period) =
      PeriodicSignalGenerator.__init__ (Some freq) None)
  /\ (forall (freq : F) (self : PeriodicSignalGenerator.t F),
      (freq <? f0) = true ->
      PeriodicSignalGenerator.set_freq freq self = (Raise ValueError, self))
  /\ (forall (freq : F) (self : PeriodicSignalGenerator.t F),
      (freq <? f0) = false ->
      PeriodicSignalGenerator.set_freq freq self =
      (Ok tt, {| PeriodicSignalGenerator._freq := freq;
                 PeriodicSignalGenerator._t :=
                   PeriodicSignalGenerator._t self |}))
  /\ (forall (period freq : F) (self : PeriodicSignalGenerator.t F),
      f1 / period = Ok freq ->
      PeriodicSignalGenerator.set_period period self =
      PeriodicSignalGenerator.set_freq freq self)
  /\ (forall self : PeriodicSignalGenerator.t F,
      PeriodicSignalGenerator.get_period self =
      (f1 / PeriodicSignalGenerator._freq self, self)).
Proof.
  repeat split.
  - intros freq Hneg. cbn [PeriodicSignalGenerator.__init__].
    now rewrite (validate_freq_negative _ Hneg).
  - intros freq Hpos. cbn [PeriodicSignalGenerator.__init__].
    now rewrite (validate_freq_nonnegative _ Hpos).
  - intros period freq Hdiv. cbn [PeriodicSignalGenerator.__init__].
    now rewrite Hdiv.
  - intros freq self Hneg.
    unfold PeriodicSignalGenerator.set_freq. run_method.
    now rewrite (validate_freq_negative _ Hneg).
  - intros freq self Hpos.
    unfold PeriodicSignalGenerator.set_freq. run_method.
    now rewrite (validate_freq_nonnegative _ Hpos).
  - intros period freq self Hdiv.
    unfold PeriodicSignalGenerator.set_period. run_method.
    now rewrite Hdiv.
Qed.

(** Claim C8, as amended: the constructor of [UniformRandomSignalGenerator]
    checks the randomness selector and nothing else.  With ['pseudo'] or
    ['true'] it succeeds for every [low] and [high], in whatever order, and
    stores them as given; with any other selector it raises [ValueError]. *)
Theorem uniform_generator_validation (low high : F) (seed : option Z)
    (randomness : string) :
  (randomness = "pseudo"%string \/ randomness = "true"%string ->
   exists self : UniformRandomSignalGenerator.t F,
     UniformRandomSignalGenerator.__init__ low high seed randomness = Ok self
     /\ UniformRandomSignalGenerator.low self = low
     /\ UniformRandomSignalGenerator.high self = high)
  /\ (randomness <> "pseudo"%string -> randomness <> "true"%string ->
      UniformRandomSignalGenerator.__init__ low high seed randomness =
      Raise ValueError).
Proof.
  unfold UniformRandomSignalGenerator.__init__,
    RandomSignalGenerator.__init__, RandomSignalGenerator._set_rng.
  split.
  - intros [-> | ->]; cbn; eexists; repeat split.
  - intros Hp Ht.
    apply String.eqb_neq in Hp. apply String.eqb_neq in Ht.
    now rewrite Hp, Ht.
Qed.
End GeneratorValidation.

(** ** The triangle wave in exact arithmetic *)
Section ExactTriangleWave.
Local Open Scope R_scope.
Import PeriodicSignalGeneratorWithDutyCycle.

(** The fractional part of [x], as [x % 1.0] computes it. *)
Lemma floor_fraction (x : R) : 0 <= x - IZR (Int_part x) < 1.
Proof. destruct (base_Int_part x). lra. Qed.

Lemma period_fraction_exact (self : t R) :
  0 < PeriodicSignalGenerator._freq (super self) ->
  exists pf : R,
    _get_period_fraction self = (Ok pf, self) /\ 0 <= pf < 1.
Proof.
  destruct self as [[freq t_now] duty_cycle].
  cbn [super PeriodicSignalGenerator._freq].
  intros Hfreq.
  assert (Hperiod : 0 < 1 / freq) by (apply Rdiv_lt_0_compat; lra).
  exists (t_now / (1 / freq) - IZR (Int_part (t_now / (1 / freq)))).
  split; [ | apply floor_fraction ].
  unfold _get_period_fraction, inherited, PeriodicSignalGenerator.get_period,
    PeriodicSignalGenerator.get_freq, set_super, truediv, pymod.
  run_method.
  cbn [super _duty_cycle PeriodicSignalGenerator._freq
       PeriodicSignalGenerator._t feqb fsub fmul fdiv fmod f0 f1 R_Num].
  destruct (Req_dec_T freq 0) as [Hz | _]; [ lra | ].
  destruct (Req_dec_T (1 / freq) 0) as [Hz | _]; [ lra | ].
  do 2 f_equal. field. lra.
Qed.

Lemma is_in_duty_cycle_exact (self : t R) :
  0 < PeriodicSignalGenerator._freq (super self) ->
  exists pf : R,
    0 <= pf < 1
    /\ _get_period_fraction self = (Ok pf, self)
    /\ _is_in_duty_cycle self = (Ok (fltb pf (_duty_cycle self)), self).
Proof.
  intros Hfreq.
  destruct (period_fraction_exact self Hfreq) as (pf & Hpf & Hrange).
  exists pf. repeat split; try tauto.
  unfold _is_in_duty_cycle, bind. rewrite Hpf. reflexivity.
Qed.

End ExactTriangleWave.

(** ** Concrete runs *)
Section ConcreteRuns.
Local Open Scope float_scope.

(** Claim C1, the step of the low-pass filter.  For every interpretation of
    the floats and every filter with cutoff frequency [c] and previous
    output [p]: whenever [alpha = a / (a + 1)] with [a = 2*pi*dt*c] is
    defined ([a + 1] is not zero), [filter(value, dt)] returns
    [alpha*value + (1 - alpha)*p] and stores it as the new [_prev_output],
    keeping the cutoff frequency; no bound on [c] is needed.  In particular,
    in binary64, [LowPassFilter(cutoff_freq=0, init_value=5.0)
    .filter(value=100.0, dt=0.01)] returns [5.0], and the filter still holds
    [5.0]. *)
Theorem lowpass_filter_step :
  (forall (F : Type) (num : Num F) (self : LowPassFilter.t F)
          (value dt alpha : F),
      let c := LowPassFilter._cutoff_freq self in
      let p := LowPassFilter._prev_output self in
      let a := (f2 * fpi * dt * c)%py in
      (a / (a + f1))%py = Ok alpha ->
      filter value dt self =
      (Ok (alpha * value + (f1 - alpha) * p)%py,
       {| LowPassFilter._cutoff_freq := c;
          LowPassFilter._prev_output :=
            (alpha * value + (f1 - alpha) * p)%py |}))
  /\ rbind (LowPassFilter.__init__ 0 5)
       (fun self => Ok (filter 100 centi self)) =
     Ok (Ok 5,
         {| LowPassFilter._cutoff_freq := 0;
            LowPassFilter._prev_output := 5 |}).
Proof.
  split.
  - intros F num self value dt alpha. apply lowpass_step.
  - vm_compute. reflexivity.
Qed.

(** At a cutoff frequency of 1 Hz the same call moves the output from 5.0
    towards 100.0 by the coefficient [a / (a + 1)]. *)
Lemma lowpass_filter_step_witness :
  let a := 2 * fpi * centi * 1 in
  let alpha := a / (a + 1) in
  filter 100 centi (LowPassFilter.mk 1 5) =
  (Ok (alpha * 100 + (1 - alpha) * 5),
   LowPassFilter.mk 1 (alpha * 100 + (1 - alpha) * 5)).
Proof.
  intros a alpha.
  apply (proj1 lowpass_filter_step float float_Num
           (LowPassFilter.mk 1 5) 100 centi alpha).
  vm_compute. reflexivity.
Defined.

(** The high-pass filter at 1 Hz, holding 5.0, fed 100.0. *)
Lemma highpass_filter_step_witness :
  let alpha := 1 / (2 * fpi * centi * 1 + 1) in
  filter 100 centi (HighPassFilter.mk 1 5 5) =
  (Ok (alpha * (5 + (100 - 5))),
   HighPassFilter.mk 1 (alpha * (5 + (100 - 5))) 100).
Proof.
  intros alpha.
  exact (highpass_filter_step (HighPassFilter.mk 1 5 5) 100 centi alpha
           eq_refl).
Defined.

(** [BandPassFilter(1.0, 2.0, 5.0)] over three ticks: [1.0 <= 2.0], the
    run agrees with the cascade, and it raises nothing. *)
Lemma bandpass_is_highpass_then_lowpass_witness :
  fresh_run (BandPassFilter.__init__ 1 2 5) three_inputs =
  cascade_of_fresh 1 2 5 three_inputs
  /\ completes (cascade_of_fresh 1 2 5 three_inputs) = true.
Proof.
  split.
  - apply (bandpass_is_highpass_then_lowpass 1 2 5 three_inputs).
    apply binary64_le_not_gt. vm_compute. reflexivity.
  - vm_compute. reflexivity.
Defined.

(** [BandStopFilter(1.0, 2.0, 5.0)] over the same three ticks. *)
Lemma bandstop_is_lowpass_plus_highpass_witness :
  fresh_run (BandStopFilter.__init__ 1 2 5) three_inputs =
  parallel_sum_of_fresh 1 2 5 three_inputs
  /\ completes (parallel_sum_of_fresh 1 2 5 three_inputs) = true.
Proof.
  split.
  - apply (bandstop_is_lowpass_plus_highpass 1 2 5 three_inputs).
    apply binary64_le_not_gt. vm_compute. reflexivity.
  - vm_compute. reflexivity.
Defined.

(** [set_cutoff_freq(-1.0)], [set_cutoff_freqs(10.0, 5.0)] and
    [BandStopFilter(10.0, 5.0)] are rejected. *)
Lemma rejected_calls_change_nothing_witness :
  LowPassFilter.set_cutoff_freq (-1) (LowPassFilter.mk 1 5) =
  (Raise ValueError, LowPassFilter.mk 1 5)
  /\ BandPassFilter.set_cutoff_freqs 10 5
       (BandPassFilter.mk (HighPassFilter.mk 1 5 7) (LowPassFilter.mk 2 3)) =
     (Raise ValueError,
      BandPassFilter.mk (HighPassFilter.mk 1 5 7) (LowPassFilter.mk 2 3))
  /\ BandStopFilter.__init__ 10 5 0 = Raise ValueError.
Proof.
  destruct (@rejected_calls_change_nothing float float_Num)
    as (Hlpf & _ & Hbpf & _ & _ & Hnew).
  split; [ | split ].
  - apply Hlpf. vm_compute. reflexivity.
  - apply Hbpf. vm_compute. reflexivity.
  - apply Hnew. vm_compute. reflexivity.
Defined.

(** Re-tuning from 1 Hz to 3 Hz. *)
Lemma set_cutoff_freq_keeps_recursive_state_witness :
  snd (LowPassFilter.set_cutoff_freq 3 (LowPassFilter.mk 1 5)) =
  LowPassFilter.mk 3 5
  /\ snd (HighPassFilter.set_cutoff_freq 3 (HighPassFilter.mk 1 5 7)) =
     HighPassFilter.mk 3 5 7.
Proof.
  destruct (@set_cutoff_freq_keeps_recursive_state float float_Num)
    as (Hlpf & Hhpf).
  split.
  - apply Hlpf. vm_compute. reflexivity.
  - apply Hhpf. vm_compute. reflexivity.
Defined.



(** Claim C7 as stated fails: [freq = 0] is accepted by the constructor
    and by [set_freq], and [period = 0] raises [ZeroDivisionError], not
    [ValueError]. *)
Lemma zero_freq_is_accepted :
  PeriodicSignalGenerator.__init__ (Some 0) None =
  Ok (PeriodicSignalGenerator.mk 0 0)
  /\ PeriodicSignalGenerator.set_freq 0 (PeriodicSignalGenerator.mk 1 0) =
     (Ok tt, PeriodicSignalGenerator.mk 0 0)
  /\ PeriodicSignalGenerator.__init__ None (Some 0) = Raise ZeroDivisionError.
Proof. vm_compute. repeat split. Qed.

(** [freq = -1.0] is rejected, [freq = 2.0] accepted, [period = 4.0] is
    [freq = 0.25], and [set_period(-4.0)] is the rejected
    [set_freq(-0.25)]. *)
Lemma periodic_generator_validation_witness :
  PeriodicSignalGenerator.__init__ (Some (-1)) None = Raise ValueError
  /\ PeriodicSignalGenerator.__init__ (Some 2) None =
     Ok (PeriodicSignalGenerator.mk 2 0)
  /\ PeriodicSignalGenerator.__init__ None (Some 4) =
     PeriodicSignalGenerator.__init__ (Some 0.25) None
  /\ PeriodicSignalGenerator.set_period (-4)
       (PeriodicSignalGenerator.mk 2 three_tenths) =
     PeriodicSignalGenerator.set_freq (-0.25)
       (PeriodicSignalGenerator.mk 2 three_tenths)
  /\ PeriodicSignalGenerator.set_freq (-0.25)
       (PeriodicSignalGenerator.mk 2 three_tenths) =
     (Raise ValueError, PeriodicSignalGenerator.mk 2 three_tenths).
Proof.
  destruct (@periodic_generator_validation float float_Num)
    as (_ & _ & Hneg & Hpos & Hperiod & Hsetneg & _ & Hsetperiod & _).
  split; [ | split; [ | split; [ | split ] ] ].
  - apply Hneg. vm_compute. reflexivity.
  - apply Hpos. vm_compute. reflexivity.
  - apply Hperiod. vm_compute. reflexivity.
  - apply Hsetperiod. vm_compute. reflexivity.
  - apply Hsetneg. vm_compute. reflexivity.
Defined.

(** Claim C8 as stated fails: [low = 1.0 >= high = 0.0] and
    [low = high = 1.0] both construct a generator. *)
Lemma uniform_bounds_are_not_checked :
  ((0 <=? 1) = true /\ (1 <=? 1) = true)
  /\ UniformRandomSignalGenerator.__init__ 1 0 (Some 42%Z) "pseudo" =
     Ok (UniformRandomSignalGenerator.mk
           (RandomSignalGenerator.Random (Some 42%Z)) 1 0)
  /\ UniformRandomSignalGenerator.__init__ 1 1 None "true" =
     Ok (UniformRandomSignalGenerator.mk
           RandomSignalGenerator.SystemRandom 1 1).
Proof. vm_compute. repeat split. Qed.

(** The defaults [low = 0.0], [high = 1.0] with a seed, and an unknown
    selector. *)
Lemma uniform_generator_validation_witness :
  (exists self : UniformRandomSignalGenerator.t float,
      UniformRandomSignalGenerator.__init__ 0 1 (Some 42%Z) "pseudo" = Ok self
      /\ UniformRandomSignalGenerator.low self = 0
      /\ UniformRandomSignalGenerator.high self = 1)
  /\ UniformRandomSignalGenerator.__init__ 0 1 None "quantum" =
     Raise ValueError.
Proof.
  split.
  - apply (uniform_generator_validation 0 1 (Some 42%Z) "pseudo").
    left. reflexivity.
  - apply (uniform_generator_validation 0 1 None "quantum"); discriminate.
Defined.



(** In binary64 the period fraction can also reach [1.0]: after
    [sample(-1e-20)] the remainder [t % period] rounds up to the period, and
    with duty cycle 1 the downswing is taken and divides by zero.  An
    ordinary sample, [sample(0.3)], takes the upswing. *)
Remark triangle_binary64_edge :
  let self :=
    PeriodicSignalGeneratorWithDutyCycle.mk
      (PeriodicSignalGenerator.mk 1 0) 1 in
  fst (TriangleWaveGenerator.sample (-0x1.79ca10c924223p-67) self) =
  Raise ZeroDivisionError
  /\ fst (TriangleWaveGenerator.sample three_tenths self) = Ok three_tenths.
Proof. vm_compute. repeat split. Qed.

(** A re-tune can be rejected half way, outside the two cases of claim C5:
    in binary64 [set_cutoff_freqs(nan, -1.0)] passes the order check (no
    comparison with NaN is true), re-tunes the high-pass filter to NaN, and
    only then raises on the negative cutoff of the low-pass filter. *)
Remark retune_rejected_half_way :
  BandPassFilter.set_cutoff_freqs nan (-1)
    (BandPassFilter.mk (HighPassFilter.mk 1 5 7) (LowPassFilter.mk 2 3)) =
  (Raise ValueError,
   BandPassFilter.mk (HighPassFilter.mk nan 5 7) (LowPassFilter.mk 2 3)).
Proof. vm_compute. reflexivity. Qed.

(** The square wave of the specification's scenario:
    [SquareWaveGenerator(freq=1.0, duty_cycle=0.5)] sampled three times with
    [dt = 0.3] yields [1.0, 0.0, 0.0]. *)
Example square_wave_scenario :
  rbind (PeriodicSignalGeneratorWithDutyCycle.__init__ (Some 1) None 0.5)
    (fun g0 =>
       let (s1, g1) := SquareWaveGenerator.sample three_tenths g0 in
       let (s2, g2) := SquareWaveGenerator.sample three_tenths g1 in
       let (s3, _) := SquareWaveGenerator.sample three_tenths g2 in
       Ok [s1; s2; s3]) =
  Ok [Ok 1; Ok 0; Ok 0].
Proof. vm_compute. reflexivity. Qed.
End ConcreteRuns.

(** * Further properties *)

(** ** Outcomes of the filter methods, for every interpretation *)
Section FilterOutcomes.
Context {F : Type} `{Num F}.

(** A low-pass call can only replace [_prev_output]. *)
Lemma lowpass_filter_outcome (value dt : F) (self : LowPassFilter.t F) :
  exists (r : result F) (p' : F),
    filter value dt self =
    (r, LowPassFilter.mk (LowPassFilter._cutoff_freq self) p').
Proof.
  destruct self as [c p].
  cbn [filter LowPassFilter.is_filter LowPassFilter._cutoff_freq].
  unfold SingleCutoffFreqFilter.filter, LowPassFilter._filter,
    LowPassFilter._get_alpha, LowPassFilter.get_cutoff_freq,
    SingleCutoffFreqFilter.get_cutoff_freq.
  run_method.
  cbn [SingleCutoffFreqFilter._cutoff_freq LowPassFilter.attributes
       LowPassFilter._cutoff_freq].
  destruct (f2 * fpi * dt * c / (f2 * fpi * dt * c + f1)) as [alpha | e];
    do 2 eexists; reflexivity.
Qed.

(** A high-pass call can only replace [_prev_output] and [_prev_value]. *)
Lemma highpass_filter_outcome (value dt : F) (self : HighPassFilter.t F) :
  exists (r : result F) (p' : F),
    filter value dt self =
    (r, HighPassFilter.mk (HighPassFilter._cutoff_freq self) p' value).
Proof.
  destruct self as [c p v].
  cbn [filter HighPassFilter.is_filter HighPassFilter._cutoff_freq].
  unfold SingleCutoffFreqFilter.filter, HighPassFilter._filter,
    HighPassFilter._get_alpha, HighPassFilter.get_cutoff_freq,
    SingleCutoffFreqFilter.get_cutoff_freq.
  run_method.
  cbn [SingleCutoffFreqFilter._cutoff_freq HighPassFilter.attributes
       HighPassFilter.set__prev_value HighPassFilter._cutoff_freq
       HighPassFilter._prev_output HighPassFilter._prev_value].
  destruct (f1 / (f2 * fpi * dt * c + f1)) as [alpha | e];
    do 2 eexists; reflexivity.
Qed.

(** [set_cutoff_freq] by cases. *)
Lemma set_cutoff_freq_cases {T : Type}
    `{SingleCutoffFreqFilter.Attributes F T} (c : F) (self : T) :
  SingleCutoffFreqFilter.set_cutoff_freq c self =
  if c <? f0 then (Raise ValueError, self)
  else (Ok tt, SingleCutoffFreqFilter.set__cutoff_freq c self).
Proof.
  destruct (c <? f0) eqn:Hc.
  - now apply set_cutoff_freq_rejected.
  - now apply set_cutoff_freq_accepted.
Qed.

Lemma lowpass_call_keeps_invariant (self : LowPassFilter.t F)
    (c : filter_call F) :
  (LowPassFilter._cutoff_freq self <? f0) = false ->
  (LowPassFilter._cutoff_freq (after_single_call self c) <? f0) = false.
Proof.
  intros Hinv. destruct c as [x | low high | value dt];
    cbn [after_single_call].
  - rewrite set_cutoff_freq_cases. destruct (x <? f0) eqn:Hx; cbn.
    + exact Hinv.
    + exact Hx.
  - exact Hinv.
  - unfold __call__.
    destruct (lowpass_filter_outcome value dt self) as (r & p' & ->).
    exact Hinv.
Qed.

Lemma highpass_call_keeps_invariant (self : HighPassFilter.t F)
    (c : filter_call F) :
  (HighPassFilter._cutoff_freq self <? f0) = false ->
  (HighPassFilter._cutoff_freq (after_single_call self c) <? f0) = false.
Proof.
  intros Hinv. destruct c as [x | low high | value dt];
    cbn [after_single_call].
  - rewrite set_cutoff_freq_cases. destruct (x <? f0) eqn:Hx; cbn.
    + exact Hinv.
    + exact Hx.
  - exact Hinv.
  - unfold __call__.
    destruct (highpass_filter_outcome value dt self) as (r & p' & ->).
    exact Hinv.
Qed.

Lemma init_cases_lowpass (c init_value : F) :
  LowPassFilter.__init__ c init_value =
  if c <? f0 then Raise ValueError else Ok (LowPassFilter.mk c init_value).
Proof.
  unfold LowPassFilter.__init__, SingleCutoffFreqFilter._check_cutoff_freq.
  now destruct (c <? f0).
Qed.

Lemma init_cases_highpass (c init_value : F) :
  HighPassFilter.__init__ c init_value =
  if c <? f0 then Raise ValueError
  else Ok (HighPassFilter.mk c init_value init_value).
Proof.
  unfold HighPassFilter.__init__, SingleCutoffFreqFilter._check_cutoff_freq.
  now destruct (c <? f0).
Qed.

(** Property X1, the cutoff frequency of a one-pole filter is never
    negative: after a successful [LowPassFilter(c, init_value)] or
    [HighPassFilter(c, init_value)] and any sequence of [set_cutoff_freq]
    and [filter] calls, whether they return or raise, [_cutoff_freq < 0] is
    false. *)
Theorem cutoff_freq_is_never_negative :
  (forall (c init_value : F) (self : LowPassFilter.t F)
          (calls : list (filter_call F)),
      LowPassFilter.__init__ c init_value = Ok self ->
      (LowPassFilter._cutoff_freq (fold_left after_single_call calls self)
         <? f0) = false)
  /\ (forall (c init_value : F) (self : HighPassFilter.t F)
             (calls : list (filter_call F)),
      HighPassFilter.__init__ c init_value = Ok self ->
      (HighPassFilter._cutoff_freq (fold_left after_single_call calls self)
         <? f0) = false).
Proof.
  split; intros c init_value self calls Hnew.
  - assert (Hinv : (LowPassFilter._cutoff_freq self <? f0) = false).
    { rewrite init_cases_lowpass in Hnew.
      destruct (c <? f0) eqn:Hc; [ discriminate | ].
      injection Hnew as <-. exact Hc. }
    clear Hnew. revert self Hinv.
    induction calls as [ | call rest IH ]; intros self Hinv.
    + exact Hinv.
    + cbn [fold_left]. apply IH. now apply lowpass_call_keeps_invariant.
  - assert (Hinv : (HighPassFilter._cutoff_freq self <? f0) = false).
    { rewrite init_cases_highpass in Hnew.
      destruct (c <? f0) eqn:Hc; [ discriminate | ].
      injection Hnew as <-. exact Hc. }
    clear Hnew. revert self Hinv.
    induction calls as [ | call rest IH ]; intros self Hinv.
    + exact Hinv.
    + cbn [fold_left]. apply IH. now apply highpass_call_keeps_invariant.
Qed.
End FilterOutcomes.

(** ** The composite filters, for every interpretation *)
Section CompositeOutcomes.
Context {F : Type} `{Num F}.

(** [set_cutoff_freqs] by cases: the order check, then the two
    sub-filters in the order the method re-tunes them. *)
Lemma bandpass_set_cutoff_freqs_cases (low high : F)
    (hpf : HighPassFilter.t F) (lpf : LowPassFilter.t F) :
  BandPassFilter.set_cutoff_freqs low high (BandPassFilter.mk hpf lpf) =
  if low >? high then (Raise ValueError, BandPassFilter.mk hpf lpf)
  else if low <? f0 then (Raise ValueError, BandPassFilter.mk hpf lpf)
  else if high <? f0
       then (Raise ValueError,
             BandPassFilter.mk
               (SingleCutoffFreqFilter.set__cutoff_freq low hpf) lpf)
       else (Ok tt,
             BandPassFilter.mk
               (SingleCutoffFreqFilter.set__cutoff_freq low hpf)
               (SingleCutoffFreqFilter.set__cutoff_freq high lpf)).
Proof.
  unfold BandPassFilter.set_cutoff_freqs,
    LowHighCutoffFreqsFilter.set_cutoff_freqs,
    LowHighCutoffFreqsFilter._check_cutoff_freqs,
    HighPassFilter.set_cutoff_freq, LowPassFilter.set_cutoff_freq.
  unfold bind at 1 2. unfold lift, zoom.
  destruct (low >? high); [ reflexivity | ].
  cbn [BandPassFilter._hpf]. rewrite set_cutoff_freq_cases.
  destruct (low <? f0); [ reflexivity | ].
  cbn [BandPassFilter.set__hpf BandPassFilter._lpf BandPassFilter._hpf].
  rewrite set_cutoff_freq_cases.
  destruct (high <? f0); reflexivity.
Qed.

Lemma bandstop_set_cutoff_freqs_cases (low high : F)
    (lpf : LowPassFilter.t F) (hpf : HighPassFilter.t F) :
  BandStopFilter.set_cutoff_freqs low high (BandStopFilter.mk lpf hpf) =
  if low >? high then (Raise ValueError, BandStopFilter.mk lpf hpf)
  else if low <? f0 then (Raise ValueError, BandStopFilter.mk lpf hpf)
  else if high <? f0
       then (Raise ValueError,
             BandStopFilter.mk
               (SingleCutoffFreqFilter.set__cutoff_freq low lpf) hpf)
       else (Ok tt,
             BandStopFilter.mk
               (SingleCutoffFreqFilter.set__cutoff_freq low lpf)
               (SingleCutoffFreqFilter.set__cutoff_freq high hpf)).
Proof.
  unfold BandStopFilter.set_cutoff_freqs,
    LowHighCutoffFreqsFilter.set_cutoff_freqs,
    LowHighCutoffFreqsFilter._check_cutoff_freqs,
    HighPassFilter.set_cutoff_freq, LowPassFilter.set_cutoff_freq.
  unfold bind at 1 2. unfold lift, zoom.
  destruct (low >? high); [ reflexivity | ].
  cbn [BandStopFilter._lpf]. rewrite set_cutoff_freq_cases.
  destruct (low <? f0); [ reflexivity | ].
  cbn [BandStopFilter.set__lpf BandStopFilter._lpf BandStopFilter._hpf].
  rewrite set_cutoff_freq_cases.
  destruct (high <? f0); reflexivity.
Qed.

(** Property X9, [set_cutoff_freqs] case by case: on both composite
    filters it raises [ValueError] and changes nothing when [low > high] or
    [low < 0]; when only [high < 0] it raises [ValueError] after the first
    sub-filter (the high-pass of a band-pass filter, the low-pass of a
    band-stop filter) has been re-tuned to [low]; otherwise it re-tunes both
    sub-filters and keeps their recursive state. *)
Theorem set_cutoff_freqs_outcomes (low high : F)
    (hpf : HighPassFilter.t F) (lpf : LowPassFilter.t F) :
  BandPassFilter.set_cutoff_freqs low high (BandPassFilter.mk hpf lpf) =
  (if low >? high then (Raise ValueError, BandPassFilter.mk hpf lpf)
   else if low <? f0 then (Raise ValueError, BandPassFilter.mk hpf lpf)
   else if high <? f0
        then (Raise ValueError,
              BandPassFilter.mk
                (SingleCutoffFreqFilter.set__cutoff_freq low hpf) lpf)
        else (Ok tt,
              BandPassFilter.mk
                (SingleCutoffFreqFilter.set__cutoff_freq low hpf)
                (SingleCutoffFreqFilter.set__cutoff_freq high lpf)))
  /\ BandStopFilter.set_cutoff_freqs low high (BandStopFilter.mk lpf hpf) =
     (if low >? high then (Raise ValueError, BandStopFilter.mk lpf hpf)
      else if low <? f0 then (Raise ValueError, BandStopFilter.mk lpf hpf)
      else if high <? f0
           then (Raise ValueError,
                 BandStopFilter.mk
                   (SingleCutoffFreqFilter.set__cutoff_freq low lpf) hpf)
           else (Ok tt,
                 BandStopFilter.mk
                   (SingleCutoffFreqFilter.set__cutoff_freq low lpf)
                   (SingleCutoffFreqFilter.set__cutoff_freq high hpf))).
Proof.
  split.
  - apply bandpass_set_cutoff_freqs_cases.
  - apply bandstop_set_cutoff_freqs_cases.
Qed.

(** Property X8, what the composite constructors accept:
    [BandPassFilter(low, high, init_value)] and
    [BandStopFilter(low, high, init_value)] raise [ValueError] exactly when
    [low > high], [low < 0] or [high < 0] (the last two through the
    sub-filters' own constructors), and otherwise build both sub-filters
    with [init_value] as previous output and previous input. *)
Theorem composite_constructor_outcomes (low high init_value : F) :
  BandPassFilter.__init__ low high init_value =
  (if (low >? high) || (low <? f0) || (high <? f0)
   then Raise ValueError
   else Ok (BandPassFilter.mk
              (HighPassFilter.mk low init_value init_value)
              (LowPassFilter.mk high init_value)))
  /\ BandStopFilter.__init__ low high init_value =
     (if (low >? high) || (low <? f0) || (high <? f0)
      then Raise ValueError
      else Ok (BandStopFilter.mk
                 (LowPassFilter.mk low init_value)
                 (HighPassFilter.mk high init_value init_value))).
Proof.
  unfold BandPassFilter.__init__, BandStopFilter.__init__,
    LowHighCutoffFreqsFilter.__init__,
    LowHighCutoffFreqsFilter._check_cutoff_freqs.
  rewrite !init_cases_lowpass, !init_cases_highpass.
  destruct (low >? high), (low <? f0), (high <? f0); split; reflexivity.
Qed.

(** A composite call never touches the cutoff frequencies of the two
    sub-filters. *)
Lemma bandpass_filter_outcome (value dt : F) (hpf : HighPassFilter.t F)
    (lpf : LowPassFilter.t F) :
  exists (r : result F) (hpf' : HighPassFilter.t F)
         (lpf' : LowPassFilter.t F),
    filter value dt (BandPassFilter.mk hpf lpf) =
    (r, BandPassFilter.mk hpf' lpf')
    /\ HighPassFilter._cutoff_freq hpf' = HighPassFilter._cutoff_freq hpf
    /\ LowPassFilter._cutoff_freq lpf' = LowPassFilter._cutoff_freq lpf.
Proof.
  rewrite bandpass_call.
  destruct (highpass_filter_outcome value dt hpf) as (rh & ph & ->).
  destruct rh as [v | e]; [ | do 3 eexists; repeat split ].
  destruct (lowpass_filter_outcome v dt lpf) as (rl & pl & ->).
  destruct rl as [w | e]; do 3 eexists; repeat split.
Qed.

Lemma bandstop_filter_outcome (value dt : F) (lpf : LowPassFilter.t F)
    (hpf : HighPassFilter.t F) :
  exists (r : result F) (lpf' : LowPassFilter.t F)
         (hpf' : HighPassFilter.t F),
    filter value dt (BandStopFilter.mk lpf hpf) =
    (r, BandStopFilter.mk lpf' hpf')
    /\ LowPassFilter._cutoff_freq lpf' = LowPassFilter._cutoff_freq lpf
    /\ HighPassFilter._cutoff_freq hpf' = HighPassFilter._cutoff_freq hpf.
Proof.
  rewrite bandstop_call.
  destruct (lowpass_filter_outcome value dt lpf) as (rl & pl & ->).
  destruct rl as [l | e]; [ | do 3 eexists; repeat split ].
  destruct (highpass_filter_outcome value dt hpf) as (rh & ph & ->).
  destruct rh as [h | e]; do 3 eexists; repeat split.
Qed.

Lemma bandpass_call_keeps_nonnegative (self : BandPassFilter.t F)
    (c : filter_call F) :
  nonnegative_pair (bandpass_cutoffs self) ->
  nonnegative_pair (bandpass_cutoffs (after_band_call self c)).
Proof.
  destruct self as [hpf lpf]. intros [Hl Hh].
  destruct c as [x | low high | value dt]; cbn [after_band_call].
  - now split.
  - cbn [set_cutoff_freqs bandpass_Band].
    rewrite bandpass_set_cutoff_freqs_cases.
    destruct (low >? high); [ now split | ].
    destruct (low <? f0) eqn:Hlow; [ now split | ].
    destruct (high <? f0) eqn:Hhigh; now split.
  - unfold __call__.
    destruct (bandpass_filter_outcome value dt hpf lpf)
      as (r & hpf' & lpf' & -> & Eh & El).
    unfold nonnegative_pair, bandpass_cutoffs in *. cbn in *.
    now rewrite Eh, El.
Qed.

Lemma bandstop_call_keeps_nonnegative (self : BandStopFilter.t F)
    (c : filter_call F) :
  nonnegative_pair (bandstop_cutoffs self) ->
  nonnegative_pair (bandstop_cutoffs (after_band_call self c)).
Proof.
  destruct self as [lpf hpf]. intros [Hl Hh].
  destruct c as [x | low high | value dt]; cbn [after_band_call].
  - now split.
  - cbn [set_cutoff_freqs bandstop_Band].
    rewrite bandstop_set_cutoff_freqs_cases.
    destruct (low >? high); [ now split | ].
    destruct (low <? f0) eqn:Hlow; [ now split | ].
    destruct (high <? f0) eqn:Hhigh; now split.
  - unfold __call__.
    destruct (bandstop_filter_outcome value dt lpf hpf)
      as (r & lpf' & hpf' & -> & El & Eh).
    unfold nonnegative_pair, bandstop_cutoffs in *. cbn in *.
    now rewrite Eh, El.
Qed.
End CompositeOutcomes.

Section HighPassStep.
Context {F : Type} `{Num F}.

(** The high-pass step, for the proofs below. *)
Lemma highpass_step (self : HighPassFilter.t F) (value dt alpha : F) :
  f1 / (f2 * fpi * dt * HighPassFilter._cutoff_freq self + f1) = Ok alpha ->
  filter value dt self =
  (Ok (alpha * (HighPassFilter._prev_output self
                + (value - HighPassFilter._prev_value self))),
   HighPassFilter.mk (HighPassFilter._cutoff_freq self)
     (alpha * (HighPassFilter._prev_output self
               + (value - HighPassFilter._prev_value self)))
     value).
Proof.
  intros Halpha. destruct self as [c p v].
  cbn [filter HighPassFilter.is_filter].
  unfold SingleCutoffFreqFilter.filter, HighPassFilter._filter,
    HighPassFilter._get_alpha, HighPassFilter.get_cutoff_freq,
    SingleCutoffFreqFilter.get_cutoff_freq.
  run_method.
  cbn [SingleCutoffFreqFilter._cutoff_freq HighPassFilter.attributes
       HighPassFilter.set__prev_value HighPassFilter._cutoff_freq
       HighPassFilter._prev_output HighPassFilter._prev_value] in *.
  rewrite Halpha. reflexivity.
Qed.
End HighPassStep.

(** ** The filters in exact arithmetic *)
Section ExactFilters.
Local Open Scope R_scope.

Lemma angular_product_nonneg_weak (dt c : R) :
  0 <= c -> 0 <= dt -> 0 <= 2 * PI * dt * c.
Proof.
  intros Hc Hdt. pose proof PI_RGT_0 as Hpi.
  apply Rmult_le_pos; [ apply Rmult_le_pos; [ | exact Hdt ] | exact Hc ].
  apply Rmult_le_pos; lra.
Qed.

Lemma lowpass_alpha_range (c dt : R) :
  0 <= c -> 0 <= dt -> 0 <= lowpass_alpha c dt < 1.
Proof.
  intros Hc Hdt.
  apply (coefficient_facts _ (angular_product_nonneg_weak dt c Hc Hdt)).
Qed.

Lemma highpass_alpha_range (c dt : R) :
  0 <= c -> 0 <= dt -> 0 < highpass_alpha c dt <= 1.
Proof.
  intros Hc Hdt.
  apply (coefficient_facts _ (angular_product_nonneg_weak dt c Hc Hdt)).
Qed.

Lemma exact_truediv (x y : R) : y <> 0 -> truediv x y = Ok (x / y).
Proof.
  intros Hy. unfold truediv. cbn [feqb fdiv f0 R_Num].
  destruct (Req_dec_T y 0) as [Hz | _]; [ contradiction | reflexivity ].
Qed.

Lemma exact_lowpass_step (c p value dt : R) :
  0 <= c -> 0 <= dt ->
  filter value dt (LowPassFilter.mk c p) =
  (Ok (lowpass_alpha c dt * value + (1 - lowpass_alpha c dt) * p),
   LowPassFilter.mk c
     (lowpass_alpha c dt * value + (1 - lowpass_alpha c dt) * p)).
Proof.
  intros Hc Hdt.
  rewrite (lowpass_step (LowPassFilter.mk c p) value dt
             (lowpass_alpha c dt)); [ reflexivity | ].
  cbn [LowPassFilter._cutoff_freq].
  apply exact_truediv.
  apply (coefficient_facts _ (angular_product_nonneg_weak dt c Hc Hdt)).
Qed.

Lemma exact_highpass_step (c p v value dt : R) :
  0 <= c -> 0 <= dt ->
  filter value dt (HighPassFilter.mk c p v) =
  (Ok (highpass_alpha c dt * (p + (value - v))),
   HighPassFilter.mk c (highpass_alpha c dt * (p + (value - v))) value).
Proof.
  intros Hc Hdt.
  rewrite (highpass_step (HighPassFilter.mk c p v) value dt
             (highpass_alpha c dt)); [ reflexivity | ].
  cbn [HighPassFilter._cutoff_freq].
  apply exact_truediv.
  apply (coefficient_facts _ (angular_product_nonneg_weak dt c Hc Hdt)).
Qed.

Lemma lowpass_feed_total (inputs : list (R * R)) :
  time_moves_forward inputs ->
  forall c p : R, 0 <= c ->
    exists outputs : list R,
      feed inputs (LowPassFilter.mk c p) = (outputs, None)
      /\ List.length outputs = List.length inputs.
Proof.
  induction 1 as [ | [value dt] rest Hdt _ IH ]; intros c p Hc.
  - exists []. now split.
  - rewrite feed_cons, (exact_lowpass_step c p value dt Hc Hdt).
    destruct (IH c (lowpass_alpha c dt * value
                    + (1 - lowpass_alpha c dt) * p) Hc)
      as (outputs & -> & Hlen).
    eexists. split; [ reflexivity | ]. cbn. now rewrite Hlen.
Qed.

Lemma highpass_feed_total (inputs : list (R * R)) :
  time_moves_forward inputs ->
  forall c p v : R, 0 <= c ->
    exists outputs : list R,
      feed inputs (HighPassFilter.mk c p v) = (outputs, None)
      /\ List.length outputs = List.length inputs.
Proof.
  induction 1 as [ | [value dt] rest Hdt _ IH ]; intros c p v Hc.
  - exists []. now split.
  - rewrite feed_cons, (exact_highpass_step c p v value dt Hc Hdt).
    destruct (IH c (highpass_alpha c dt * (p + (value - v))) value Hc)
      as (outputs & -> & Hlen).
    eexists. split; [ reflexivity | ]. cbn. now rewrite Hlen.
Qed.

Lemma bandpass_feed_total (inputs : list (R * R)) :
  time_moves_forward inputs ->
  forall cl pl ch ph vh : R, 0 <= ch -> 0 <= cl ->
    exists outputs : list R,
      feed inputs
        (BandPassFilter.mk (HighPassFilter.mk ch ph vh)
           (LowPassFilter.mk cl pl)) = (outputs, None)
      /\ List.length outputs = List.length inputs.
Proof.
  induction 1 as [ | [value dt] rest Hdt _ IH ]; intros cl pl ch ph vh Hh Hl.
  - exists []. now split.
  - rewrite feed_cons, bandpass_call,
      (exact_highpass_step ch ph vh value dt Hh Hdt),
      (exact_lowpass_step cl pl _ dt Hl Hdt).
    destruct (IH cl (lowpass_alpha cl dt
                       * (highpass_alpha ch dt * (ph + (value - vh)))
                     + (1 - lowpass_alpha cl dt) * pl)
                ch (highpass_alpha ch dt * (ph + (value - vh))) value Hh Hl)
      as (outputs & -> & Hlen).
    eexists. split; [ reflexivity | ]. cbn. now rewrite Hlen.
Qed.

Lemma bandstop_feed_total (inputs : list (R * R)) :
  time_moves_forward inputs ->
  forall cl pl ch ph vh : R, 0 <= cl -> 0 <= ch ->
    exists outputs : list R,
      feed inputs
        (BandStopFilter.mk (LowPassFilter.mk cl pl)
           (HighPassFilter.mk ch ph vh)) = (outputs, None)
      /\ List.length outputs = List.length inputs.
Proof.
  induction 1 as [ | [value dt] rest Hdt _ IH ]; intros cl pl ch ph vh Hl Hh.
  - exists []. now split.
  - rewrite feed_cons, bandstop_call,
      (exact_lowpass_step cl pl value dt Hl Hdt),
      (exact_highpass_step ch ph vh value dt Hh Hdt).
    destruct (IH cl (lowpass_alpha cl dt * value
                     + (1 - lowpass_alpha cl dt) * pl)
                ch (highpass_alpha ch dt * (ph + (value - vh))) value Hl Hh)
      as (outputs & -> & Hlen).
    eexists. split; [ reflexivity | ]. cbn. now rewrite Hlen.
Qed.



Lemma lowpass_constant_input (n : nat) (c value dt : R) :
  0 <= c -> 0 <= dt ->
  forall p : R,
    feed (repeat (value, dt) n) (LowPassFilter.mk c p) =
    (map (lowpass_settling (lowpass_alpha c dt) p value) (seq 0 n), None).
Proof.
  intros Hc Hdt. induction n as [ | n IH ]; intros p.
  - reflexivity.
  - cbn [repeat]. rewrite feed_cons, (exact_lowpass_step c p value dt Hc Hdt).
    rewrite IH. cbn [seq map]. rewrite <- seq_shift, map_map.
    f_equal. f_equal.
    + unfold lowpass_settling. cbn [pow]. ring.
    + apply map_ext. intros k. unfold lowpass_settling. cbn [pow]. ring.
Qed.

Lemma highpass_constant_input (n : nat) (c value dt : R) :
  0 <= c -> 0 <= dt ->
  forall p v : R,
    feed (repeat (value, dt) n) (HighPassFilter.mk c p v) =
    (map (highpass_decay (highpass_alpha c dt) p v value) (seq 0 n), None).
Proof.
  intros Hc Hdt. induction n as [ | n IH ]; intros p v.
  - reflexivity.
  - cbn [repeat].
    rewrite feed_cons, (exact_highpass_step c p v value dt Hc Hdt).
    rewrite IH. cbn [seq map]. rewrite <- seq_shift, map_map.
    f_equal. f_equal.
    + unfold highpass_decay. cbn [pow]. ring.
    + apply map_ext. intros k. unfold highpass_decay. cbn [pow]. ring.
Qed.

Lemma geometric_vanishes (q x eps : R) :
  0 <= q < 1 -> 0 < eps ->
  exists N : nat, forall k : nat, (N <= k)%nat -> Rabs (q ^ S k * x) < eps.
Proof.
  intros Hq Heps.
  assert (Hbound : 0 < eps / (Rabs x + 1)).
  { apply Rdiv_lt_0_compat; [ exact Heps | ].
    pose proof (Rabs_pos x). lra. }
  destruct (pow_lt_1_zero q) with (y := eps / (Rabs x + 1))
    as [N HN]; [ rewrite Rabs_pos_eq; lra | exact Hbound | ].
  exists N. intros k Hk.
  specialize (HN (S k) ltac:(unfold ge; apply le_S; exact Hk)).
  rewrite Rabs_mult.
  pose proof (Rabs_pos x) as Hx. pose proof (Rabs_pos (q ^ S k)) as Hp.
  apply Rle_lt_trans with (Rabs (q ^ S k) * (Rabs x + 1)).
  - apply Rmult_le_compat_l; lra.
  - apply Rmult_lt_reg_r with (/ (Rabs x + 1)).
    + apply Rinv_0_lt_compat. lra.
    + rewrite Rmult_assoc, Rinv_r, Rmult_1_r; [ exact HN | lra ].
Qed.



Lemma lowpass_holds_at_zero_cutoff (inputs : list (R * R)) (p : R) :
  feed inputs (LowPassFilter.mk 0 p) = (map (fun _ => p) inputs, None).
Proof.
  induction inputs as [ | [value dt] rest IH ].
  - reflexivity.
  - rewrite feed_cons.
    rewrite (lowpass_step (LowPassFilter.mk 0 p) value dt 0).
    + cbn [LowPassFilter._cutoff_freq LowPassFilter._prev_output
           fadd fsub fmul f1 R_Num].
      replace (0 * value + (1 - 0) * p) with p by ring.
      rewrite IH. reflexivity.
    + cbn [LowPassFilter._cutoff_freq fadd fmul f1 f2 fpi R_Num].
      rewrite Rmult_0_r, exact_truediv by lra.
      f_equal. unfold Rdiv. apply Rmult_0_l.
Qed.

Lemma highpass_passes_at_zero_cutoff (inputs : list (R * R)) :
  forall p v : R,
    feed inputs (HighPassFilter.mk 0 p v) =
    (map (fun input => fst input + (p - v)) inputs, None).
Proof.
  induction inputs as [ | [value dt] rest IH ]; intros p v.
  - reflexivity.
  - rewrite feed_cons.
    rewrite (highpass_step (HighPassFilter.mk 0 p v) value dt 1).
    + cbn [HighPassFilter._cutoff_freq HighPassFilter._prev_output
           HighPassFilter._prev_value fadd fsub fmul R_Num].
      rewrite IH. cbn [map fst]. f_equal. f_equal.
      * ring.
      * apply map_ext. intros [value' dt']. cbn [fst]. ring.
    + cbn [HighPassFilter._cutoff_freq fadd fmul f1 f2 fpi R_Num].
      rewrite Rmult_0_r, exact_truediv by lra.
      f_equal. field.
Qed.

End ExactFilters.

(** ** A call that divides by zero *)
Section DivisionByZero.
Context {F : Type} `{Num F}.

(** Property X2, a call that divides by zero: when [2*pi*dt*c + 1] is
    zero, [filter(value, dt)] raises [ZeroDivisionError] on both one-pole
    filters.  The low-pass filter is left as it was; the high-pass filter
    has already stored [value] as [_prev_value], its [_prev_output]
    unchanged. *)
Theorem zero_denominator_outcomes (c p v value dt : F) :
  (f2 * fpi * dt * c + f1 == f0) = true ->
  filter value dt (LowPassFilter.mk c p) =
  (Raise ZeroDivisionError, LowPassFilter.mk c p)
  /\ filter value dt (HighPassFilter.mk c p v) =
     (Raise ZeroDivisionError, HighPassFilter.mk c p value).
Proof.
  intros Hzero. split.
  - cbn [filter LowPassFilter.is_filter].
    unfold SingleCutoffFreqFilter.filter, LowPassFilter._filter,
      LowPassFilter._get_alpha, LowPassFilter.get_cutoff_freq,
      SingleCutoffFreqFilter.get_cutoff_freq, truediv.
    run_method.
    cbn [SingleCutoffFreqFilter._cutoff_freq LowPassFilter.attributes
         LowPassFilter._cutoff_freq].
    now rewrite Hzero.
  - cbn [filter HighPassFilter.is_filter].
    unfold SingleCutoffFreqFilter.filter, HighPassFilter._filter,
      HighPassFilter._get_alpha, HighPassFilter.get_cutoff_freq,
      SingleCutoffFreqFilter.get_cutoff_freq, truediv.
    run_method.
    cbn [SingleCutoffFreqFilter._cutoff_freq HighPassFilter.attributes
         HighPassFilter.set__prev_value HighPassFilter._cutoff_freq
         HighPassFilter._prev_output HighPassFilter._prev_value].
    now rewrite Hzero.
Qed.
End DivisionByZero.

(** ** The life of a composite filter *)
Section CompositeLifetimes.
Context {F : Type} `{Num F}.

(** Property X10, the cutoff frequencies of a composite filter are never
    negative: after a successful constructor and any sequence of
    [set_cutoff_freqs] and [filter] calls, whether they return or raise,
    neither sub-filter has [_cutoff_freq < 0]. *)
Theorem composite_cutoffs_are_never_negative :
  (forall (low high init_value : F) (self : BandPassFilter.t F)
          (calls : list (filter_call F)),
      BandPassFilter.__init__ low high init_value = Ok self ->
      nonnegative_pair
        (bandpass_cutoffs (fold_left after_band_call calls self)))
  /\ (forall (low high init_value : F) (self : BandStopFilter.t F)
             (calls : list (filter_call F)),
      BandStopFilter.__init__ low high init_value = Ok self ->
      nonnegative_pair
        (bandstop_cutoffs (fold_left after_band_call calls self))).
Proof.
  split; intros low high init_value self calls Hnew.
  - assert (Hinv : nonnegative_pair (bandpass_cutoffs self)).
    { unfold BandPassFilter.__init__ in Hnew.
      destruct (LowHighCutoffFreqsFilter.__init__ low high);
        [ | discriminate ].
      cbn [rbind] in Hnew.
      rewrite init_cases_highpass, init_cases_lowpass in Hnew.
      destruct (low <? f0) eqn:Hl; [ discriminate | ].
      destruct (high <? f0) eqn:Hh; [ discriminate | ].
      injection Hnew as <-. now split. }
    clear Hnew. revert self Hinv.
    induction calls as [ | call rest IH ]; intros self Hinv.
    + exact Hinv.
    + cbn [fold_left]. apply IH. now apply bandpass_call_keeps_nonnegative.
  - assert (Hinv : nonnegative_pair (bandstop_cutoffs self)).
    { unfold BandStopFilter.__init__ in Hnew.
      destruct (LowHighCutoffFreqsFilter.__init__ low high);
        [ | discriminate ].
      cbn [rbind] in Hnew.
      rewrite init_cases_highpass, init_cases_lowpass in Hnew.
      destruct (low <? f0) eqn:Hl; [ discriminate | ].
      destruct (high <? f0) eqn:Hh; [ discriminate | ].
      injection Hnew as <-. now split. }
    clear Hnew. revert self Hinv.
    induction calls as [ | call rest IH ]; intros self Hinv.
    + exact Hinv.
    + cbn [fold_left]. apply IH. now apply bandstop_call_keeps_nonnegative.
Qed.
End CompositeLifetimes.

Section ExactComposites.
Local Open Scope R_scope.

Lemma exact_ltb_false (x y : R) : y <= x -> fltb x y = false.
Proof.
  intros Hle. cbn [fltb R_Num].
  destruct (Rlt_dec x y) as [Hlt | _]; [ lra | reflexivity ].
Qed.

Lemma exact_ltb_true (x y : R) : x < y -> fltb x y = true.
Proof.
  intros Hlt. cbn [fltb R_Num].
  destruct (Rlt_dec x y) as [_ | Hge]; [ reflexivity | lra ].
Qed.

Lemma exact_bandpass_retune (low high : R) (self : BandPassFilter.t R) :
  BandPassFilter.set_cutoff_freqs low high self =
  if Rle_dec 0 low
  then if Rle_dec low high
       then (Ok tt,
             BandPassFilter.mk
               (SingleCutoffFreqFilter.set__cutoff_freq low
                  (BandPassFilter._hpf self))
               (SingleCutoffFreqFilter.set__cutoff_freq high
                  (BandPassFilter._lpf self)))
       else (Raise ValueError, self)
  else (Raise ValueError, self).
Proof.
  destruct self as [hpf lpf]. rewrite bandpass_set_cutoff_freqs_cases.
  cbn [BandPassFilter._hpf BandPassFilter._lpf f0 R_Num].
  destruct (Rle_dec 0 low) as [Hl | Hl], (Rle_dec low high) as [Hh | Hh].
  - rewrite (exact_ltb_false high low), (exact_ltb_false low 0),
      (exact_ltb_false high 0); [ reflexivity | lra | lra | lra ].
  - rewrite (exact_ltb_true high low); [ reflexivity | lra ].
  - destruct (fltb high low); [ reflexivity | ].
    rewrite (exact_ltb_true low 0); [ reflexivity | lra ].
  - rewrite (exact_ltb_true high low); [ reflexivity | lra ].
Qed.

Lemma exact_bandstop_retune (low high : R) (self : BandStopFilter.t R) :
  BandStopFilter.set_cutoff_freqs low high self =
  if Rle_dec 0 low
  then if Rle_dec low high
       then (Ok tt,
             BandStopFilter.mk
               (SingleCutoffFreqFilter.set__cutoff_freq low
                  (BandStopFilter._lpf self))
               (SingleCutoffFreqFilter.set__cutoff_freq high
                  (BandStopFilter._hpf self)))
       else (Raise ValueError, self)
  else (Raise ValueError, self).
Proof.
  destruct self as [lpf hpf]. rewrite bandstop_set_cutoff_freqs_cases.
  cbn [BandStopFilter._hpf BandStopFilter._lpf f0 R_Num].
  destruct (Rle_dec 0 low) as [Hl | Hl], (Rle_dec low high) as [Hh | Hh].
  - rewrite (exact_ltb_false high low), (exact_ltb_false low 0),
      (exact_ltb_false high 0); [ reflexivity | lra | lra | lra ].
  - rewrite (exact_ltb_true high low); [ reflexivity | lra ].
  - destruct (fltb high low); [ reflexivity | ].
    rewrite (exact_ltb_true low 0); [ reflexivity | lra ].
  - rewrite (exact_ltb_true high low); [ reflexivity | lra ].
Qed.


Lemma exact_bandpass_call_keeps_band (self : BandPassFilter.t R)
    (c : filter_call R) :
  is_band (bandpass_cutoffs self) ->
  is_band (bandpass_cutoffs (after_band_call self c)).
Proof.
  intros Hinv. destruct c as [x | low high | value dt];
    cbn [after_band_call].
  - exact Hinv.
  - cbn [set_cutoff_freqs bandpass_Band]. rewrite exact_bandpass_retune.
    destruct (Rle_dec 0 low), (Rle_dec low high); cbn [snd]; try exact Hinv.
    destruct self as [[ch ph vh] [cl pl]]. unfold is_band. cbn. lra.
  - destruct self as [hpf lpf]. unfold __call__.
    destruct (bandpass_filter_outcome value dt hpf lpf)
      as (r & hpf' & lpf' & -> & Eh & El).
    unfold is_band, bandpass_cutoffs in *. cbn in *. now rewrite Eh, El.
Qed.

Lemma exact_bandstop_call_keeps_band (self : BandStopFilter.t R)
    (c : filter_call R) :
  is_band (bandstop_cutoffs self) ->
  is_band (bandstop_cutoffs (after_band_call self c)).
Proof.
  intros Hinv. destruct c as [x | low high | value dt];
    cbn [after_band_call].
  - exact Hinv.
  - cbn [set_cutoff_freqs bandstop_Band]. rewrite exact_bandstop_retune.
    destruct (Rle_dec 0 low), (Rle_dec low high); cbn [snd]; try exact Hinv.
    destruct self as [[cl pl] [ch ph vh]]. unfold is_band. cbn. lra.
  - destruct self as [lpf hpf]. unfold __call__.
    destruct (bandstop_filter_outcome value dt lpf hpf)
      as (r & lpf' & hpf' & -> & El & Eh).
    unfold is_band, bandstop_cutoffs in *. cbn in *. now rewrite Eh, El.
Qed.

End ExactComposites.

(** ** The duty-cycle generators, for every interpretation *)
Section DutyCycleGenerators.
Context {F : Type} `{Num F}.
Import PeriodicSignalGeneratorWithDutyCycle.

(** Property X13, the duty cycle is validated against [[0, 1]]:
    [set_duty_cycle(d)] raises [ValueError] and changes nothing when
    [d < 0] or [d > 1], and otherwise replaces the duty cycle only; the
    constructor reports a bad [freq] or [period] first, then a bad duty
    cycle, and otherwise builds the generator with that duty cycle. *)
Theorem duty_cycle_validation :
  (forall (d : F) (self : t F),
      (d <? f0) = true \/ (d >? f1) = true ->
      set_duty_cycle d self = (Raise ValueError, self))
  /\ (forall (d : F) (self : t F),
      (d <? f0) = false -> (d >? f1) = false ->
      set_duty_cycle d self = (Ok tt, mk (super self) d))
  /\ (forall (freq period : option F) (d : F),
      __init__ freq period d =
      match PeriodicSignalGenerator.__init__ freq period with
      | Raise e => Raise e
      | Ok base =>
          if (d <? f0) || (d >? f1) then Raise ValueError
          else Ok (mk base d)
      end).
Proof.
  split; [ | split ].
  - intros d self Hbad.
    unfold set_duty_cycle, _validate_duty_cycle. run_method.
    destruct Hbad as [-> | ->]; [ reflexivity | ].
    now rewrite orb_true_r.
  - intros d self Hlo Hhi.
    unfold set_duty_cycle, _validate_duty_cycle. run_method.
    now rewrite Hlo, Hhi.
  - intros freq period d. unfold __init__, _validate_duty_cycle.
    destruct (PeriodicSignalGenerator.__init__ freq period) as [base | e];
      [ | reflexivity ].
    cbn [rbind]. now destruct ((d <? f0) || (d >? f1)).
Qed.

Lemma get_period_fraction_reads (self : t F) :
  snd (_get_period_fraction self) = self.
Proof.
  destruct self as [[freq t_now] d].
  unfold _get_period_fraction, inherited, PeriodicSignalGenerator.get_period,
    PeriodicSignalGenerator.get_freq, set_super.
  run_method.
  cbn [super _duty_cycle PeriodicSignalGenerator._freq
       PeriodicSignalGenerator._t].
  destruct (f1 / freq) as [period | e]; [ | reflexivity ].
  destruct (t_now %% period) as [t_in_period | e]; [ | reflexivity ].
  destruct (t_in_period / period) as [fraction | e]; reflexivity.
Qed.

Lemma reads_then {A B : Type} (m : M (t F) A) (k : A -> M (t F) B)
    (self : t F) :
  snd (m self) = self ->
  (forall a : A, snd (k a self) = self) ->
  snd (bind m k self) = self.
Proof.
  intros Hm Hk. unfold bind.
  destruct (m self) as [[a | e] self'] eqn:E; cbn [snd] in Hm; subst self'.
  - apply Hk.
  - reflexivity.
Qed.

Lemma is_in_duty_cycle_reads (self : t F) :
  snd (_is_in_duty_cycle self) = self.
Proof.
  unfold _is_in_duty_cycle.
  apply reads_then; [ apply get_period_fraction_reads | ].
  intros pf. reflexivity.
Qed.

Lemma triangle_get_sample_reads (self : t F) :
  snd (TriangleWaveGenerator._get_sample self) = self.
Proof.
  unfold TriangleWaveGenerator._get_sample.
  apply reads_then; [ apply is_in_duty_cycle_reads | ].
  intros [ | ].
  - unfold TriangleWaveGenerator._get_upswing.
    apply reads_then; [ apply get_period_fraction_reads | ].
    intros pf. unfold get_duty_cycle. run_method.
    destruct (pf / _duty_cycle self); reflexivity.
  - unfold TriangleWaveGenerator._get_downswing.
    apply reads_then; [ apply get_period_fraction_reads | ].
    intros pf. unfold get_duty_cycle. run_method. reflexivity.
Qed.

Lemma square_get_sample_reads (self : t F) :
  snd (SquareWaveGenerator._get_sample self) = self.
Proof.
  unfold SquareWaveGenerator._get_sample.
  apply reads_then; [ apply is_in_duty_cycle_reads | ].
  intros b. reflexivity.
Qed.

Lemma sample_with_advances (get_sample : M (t F) F) (dt : F) (self : t F) :
  (forall s : t F, snd (get_sample s) = s) ->
  sample_with get_sample dt self =
  (fst (get_sample (advanced dt self)), advanced dt self).
Proof.
  intros Hreads. unfold sample_with, inherited,
    PeriodicSignalGenerator._update_time.
  unfold bind, zoom, modify.
  change (set_super _ self) with (advanced dt self).
  specialize (Hreads (advanced dt self)).
  destruct (get_sample (advanced dt self)) as [[v | e] s'];
    cbn [fst snd] in *; now subst s'.
Qed.

(** Property X14, sampling only advances the clock: after
    [sample(dt)] on a square or triangle wave generator, whether it returned
    or raised, [_t] has grown by [dt] and the frequency and the duty cycle
    are what they were. *)
Theorem sample_only_advances_the_clock (dt : F) (self : t F) :
  snd (SquareWaveGenerator.sample dt self) = advanced dt self
  /\ snd (TriangleWaveGenerator.sample dt self) = advanced dt self.
Proof.
  unfold SquareWaveGenerator.sample, TriangleWaveGenerator.sample.
  rewrite (sample_with_advances _ dt self square_get_sample_reads).
  rewrite (sample_with_advances _ dt self triangle_get_sample_reads).
  now split.
Qed.

(** Property X15, the square wave is 0.0 or 1.0: every value that
    [SquareWaveGenerator.sample] returns is one of the two. *)
Theorem square_wave_is_zero_or_one (dt value : F) (self : t F) :
  fst (SquareWaveGenerator.sample dt self) = Ok value ->
  value = f1 \/ value = f0.
Proof.
  unfold SquareWaveGenerator.sample.
  rewrite (sample_with_advances _ dt self square_get_sample_reads).
  cbn [fst]. unfold SquareWaveGenerator._get_sample, bind, ret.
  destruct (_is_in_duty_cycle (advanced dt self)) as [[b | e] s'];
    cbn [fst]; [ | discriminate ].
  intros [= <-]. destruct b; [ now left | now right ].
Qed.
End DutyCycleGenerators.

(** ** The generators in exact arithmetic *)
Section ExactGenerators.
Local Open Scope R_scope.
Import PeriodicSignalGeneratorWithDutyCycle.

Lemma get_period_fraction_exact (freq t_now d : R) :
  0 < freq ->
  _get_period_fraction (mk (PeriodicSignalGenerator.mk freq t_now) d) =
  (Ok (period_fraction freq t_now),
   mk (PeriodicSignalGenerator.mk freq t_now) d).
Proof.
  intros Hfreq.
  assert (Hperiod : 0 < 1 / freq) by (apply Rdiv_lt_0_compat; lra).
  unfold _get_period_fraction, inherited, PeriodicSignalGenerator.get_period,
    PeriodicSignalGenerator.get_freq, set_super, truediv, pymod.
  run_method.
  cbn [super _duty_cycle PeriodicSignalGenerator._freq
       PeriodicSignalGenerator._t feqb fsub fmul fdiv fmod f0 f1 R_Num].
  destruct (Req_dec_T freq 0) as [Hz | _]; [ lra | ].
  destruct (Req_dec_T (1 / freq) 0) as [Hz | _]; [ lra | ].
  unfold period_fraction. do 2 f_equal. field. lra.
Qed.

Lemma period_fraction_range (freq t_now : R) :
  0 <= period_fraction freq t_now < 1.
Proof. apply floor_fraction. Qed.

Lemma is_in_duty_cycle_value (freq t_now d : R) :
  0 < freq ->
  _is_in_duty_cycle (mk (PeriodicSignalGenerator.mk freq t_now) d) =
  (Ok (fltb (period_fraction freq t_now) d),
   mk (PeriodicSignalGenerator.mk freq t_now) d).
Proof.
  intros Hfreq. unfold _is_in_duty_cycle, bind.
  rewrite (get_period_fraction_exact _ _ _ Hfreq). reflexivity.
Qed.

Lemma triangle_get_sample_exact (freq t_now d : R) :
  0 < freq -> 0 <= d <= 1 ->
  TriangleWaveGenerator._get_sample
    (mk (PeriodicSignalGenerator.mk freq t_now) d) =
  (Ok (triangle_value d (period_fraction freq t_now)),
   mk (PeriodicSignalGenerator.mk freq t_now) d).
Proof.
  intros Hfreq Hd.
  pose proof (period_fraction_range freq t_now) as Hpf.
  unfold TriangleWaveGenerator._get_sample, bind.
  rewrite (is_in_duty_cycle_value _ _ _ Hfreq).
  unfold triangle_value. cbn [fltb R_Num].
  destruct (Rlt_dec (period_fraction freq t_now) d) as [Hlt | Hge].
  - unfold TriangleWaveGenerator._get_upswing, bind.
    rewrite (get_period_fraction_exact _ _ _ Hfreq).
    unfold get_duty_cycle, gets, lift, ret. cbn [_duty_cycle].
    rewrite exact_truediv by lra. reflexivity.
  - unfold TriangleWaveGenerator._get_downswing, bind.
    rewrite (get_period_fraction_exact _ _ _ Hfreq).
    unfold get_duty_cycle, gets, lift. cbn [_duty_cycle fsub f1 R_Num].
    rewrite exact_truediv by lra. reflexivity.
Qed.

Lemma triangle_value_range (d pf : R) :
  0 <= d <= 1 -> 0 <= pf < 1 -> 0 <= triangle_value d pf <= 1.
Proof.
  intros Hd Hpf. unfold triangle_value.
  destruct (Rlt_dec pf d) as [Hlt | Hge].
  - assert (Hdpos : 0 < d) by lra.
    split.
    + apply Rmult_le_pos; [ lra | ].
      apply Rlt_le. now apply Rinv_0_lt_compat.
    + apply Rmult_le_reg_r with d; [ exact Hdpos | ].
      unfold Rdiv. rewrite Rmult_assoc, Rinv_l; lra.
  - assert (Hdpos : 0 < 1 - d) by lra.
    split.
    + apply Rmult_le_pos; [ lra | ].
      apply Rlt_le. now apply Rinv_0_lt_compat.
    + apply Rmult_le_reg_r with (1 - d); [ exact Hdpos | ].
      unfold Rdiv. rewrite Rmult_assoc, Rinv_l; lra.
Qed.


Lemma Int_part_shift (x : R) (k : Z) :
  Int_part (x + IZR k) = (Int_part x + k)%Z.
Proof.
  symmetry. apply Int_part_spec. rewrite plus_IZR.
  destruct (base_Int_part x). lra.
Qed.

Lemma period_fraction_shift (freq t_now : R) (k : Z) :
  0 < freq ->
  period_fraction freq (t_now + IZR k * (1 / freq)) =
  period_fraction freq t_now.
Proof.
  intros Hfreq. unfold period_fraction.
  replace ((t_now + IZR k * (1 / freq)) / (1 / freq))
    with (t_now / (1 / freq) + IZR k) by (field; lra).
  rewrite Int_part_shift, plus_IZR. ring.
Qed.

Lemma square_get_sample_exact (freq t_now d : R) :
  0 < freq ->
  SquareWaveGenerator._get_sample
    (mk (PeriodicSignalGenerator.mk freq t_now) d) =
  (Ok (if Rlt_dec (period_fraction freq t_now) d then 1 else 0),
   mk (PeriodicSignalGenerator.mk freq t_now) d).
Proof.
  intros Hfreq. unfold SquareWaveGenerator._get_sample, bind.
  rewrite (is_in_duty_cycle_value _ _ _ Hfreq).
  unfold ret. cbn [fltb f0 f1 R_Num].
  now destruct (Rlt_dec (period_fraction freq t_now) d).
Qed.

Lemma triangle_get_sample_by_fraction (freq t1 t2 d : R) :
  0 < freq ->
  period_fraction freq t1 = period_fraction freq t2 ->
  fst (TriangleWaveGenerator._get_sample
         (mk (PeriodicSignalGenerator.mk freq t1) d)) =
  fst (TriangleWaveGenerator._get_sample
         (mk (PeriodicSignalGenerator.mk freq t2) d)).
Proof.
  intros Hfreq Heq.
  unfold TriangleWaveGenerator._get_sample, bind.
  rewrite !(is_in_duty_cycle_value _ _ _ Hfreq), Heq.
  destruct (fltb (period_fraction freq t2) d).
  - unfold TriangleWaveGenerator._get_upswing, bind.
    rewrite !(get_period_fraction_exact _ _ _ Hfreq), Heq.
    unfold get_duty_cycle, gets, lift, ret. cbn [_duty_cycle].
    now destruct (truediv (period_fraction freq t2) d).
  - unfold TriangleWaveGenerator._get_downswing, bind.
    rewrite !(get_period_fraction_exact _ _ _ Hfreq), Heq.
    unfold get_duty_cycle, gets, lift. cbn [_duty_cycle].
    reflexivity.
Qed.


Lemma square_sample_exact (dt : R) (self : t R) :
  0 < PeriodicSignalGenerator._freq (super self) ->
  exists value : R,
    SquareWaveGenerator.sample dt self = (Ok value, advanced dt self)
    /\ (value = 0 \/ value = 1).
Proof.
  destruct self as [[freq t_now] d].
  cbn [super PeriodicSignalGenerator._freq]. intros Hfreq.
  unfold SquareWaveGenerator.sample.
  rewrite (sample_with_advances _ dt _ square_get_sample_reads).
  unfold advanced.
  cbn [super _duty_cycle PeriodicSignalGenerator._freq
       PeriodicSignalGenerator._t].
  rewrite (square_get_sample_exact freq _ d Hfreq). cbn [fst].
  eexists. split; [ reflexivity | ].
  destruct (Rlt_dec _ d); [ now right | now left ].
Qed.

Lemma square_sample_range_exact (dt : R) (n : nat) :
  forall self : t R,
    0 < PeriodicSignalGenerator._freq (super self) ->
    exists values : list R,
      SignalGenerator._sample_range SquareWaveGenerator.sample dt n self =
      (values, None,
       mk (PeriodicSignalGenerator.mk
             (PeriodicSignalGenerator._freq (super self))
             (PeriodicSignalGenerator._t (super self) + INR n * dt))
          (_duty_cycle self))
      /\ List.length values = n
      /\ Forall (fun value => value = 0 \/ value = 1) values.
Proof.
  induction n as [ | n IH ]; intros self Hfreq.
  - exists []. cbn [SignalGenerator._sample_range INR].
    destruct self as [[freq t_now] d]. cbn.
    split; [ | split; [ reflexivity | constructor ] ].
    do 3 f_equal. ring.
  - destruct (square_sample_exact dt self Hfreq) as (value & Hs & Hv).
    destruct (IH (advanced dt self) Hfreq) as (values & Hrest & Hlen & Hall).
    exists (value :: values).
    cbn [SignalGenerator._sample_range]. rewrite Hs, Hrest.
    split; [ | split ].
    + destruct self as [[freq t_now] d]. unfold advanced.
      cbn [super _duty_cycle PeriodicSignalGenerator._freq
           PeriodicSignalGenerator._t fadd R_Num].
      do 3 f_equal. rewrite S_INR. ring.
    + cbn. now rewrite Hlen.
    + now constructor.
Qed.



End ExactGenerators.

(** ** The random generators *)
Section RandomGenerators.

(** Property X21, the Gaussian generator validates the randomness
    selector only: with ['pseudo'] or ['true'] the constructor succeeds for
    every [mean] and [std_dev], a negative [std_dev] included, and stores
    them as given; with any other selector it raises [ValueError]. *)
Theorem gaussian_generator_validation {F : Type} (mean std_dev : F)
    (seed : option Z) (randomness : string) :
  (randomness = "pseudo"%string \/ randomness = "true"%string ->
   exists self : GaussianRandomSignalGenerator.t F,
     GaussianRandomSignalGenerator.__init__ mean std_dev seed randomness
     = Ok self
     /\ GaussianRandomSignalGenerator.mean self = mean
     /\ GaussianRandomSignalGenerator.std_dev self = std_dev)
  /\ (randomness <> "pseudo"%string -> randomness <> "true"%string ->
      GaussianRandomSignalGenerator.__init__ mean std_dev seed randomness
      = Raise ValueError).
Proof.
  unfold GaussianRandomSignalGenerator.__init__,
    RandomSignalGenerator.__init__, RandomSignalGenerator._set_rng.
  split.
  - intros [-> | ->]; cbn; eexists; repeat split.
  - intros Hp Ht.
    apply String.eqb_neq in Hp. apply String.eqb_neq in Ht.
    now rewrite Hp, Ht.
Qed.
End RandomGenerators.

(** ** Runs of the further properties *)

Section FurtherBinary64Runs.
Local Open Scope float_scope.

(** A low-pass filter built at 1 Hz, fed, re-tuned to a rejected and to an
    accepted cutoff, then fed a negative [dt]. *)
Lemma cutoff_freq_is_never_negative_witness :
  (LowPassFilter._cutoff_freq
     (fold_left after_single_call
        [Feed 100 centi; Retune (-1); Retune 2; Feed 3 (-1)]
        (LowPassFilter.mk 1 5)) <? f0)%py = false.
Proof.
  apply (proj1 (@cutoff_freq_is_never_negative float float_Num) 1 5).
  vm_compute. reflexivity.
Defined.

(** In binary64, [2*pi*dt*1.0 + 1.0] is exactly zero at
    [dt = -0.15915494309189535]. *)
Lemma zero_denominator_outcomes_witness :
  filter 100 minus_inverse_two_pi (LowPassFilter.mk 1 5) =
  (Raise ZeroDivisionError, LowPassFilter.mk 1 5)
  /\ filter 100 minus_inverse_two_pi (HighPassFilter.mk 1 5 5) =
     (Raise ZeroDivisionError, HighPassFilter.mk 1 5 100).
Proof.
  apply (@zero_denominator_outcomes float float_Num 1 5 5 100
           minus_inverse_two_pi).
  vm_compute. reflexivity.
Defined.

(** A band-pass filter whose re-tune stops half way, then fed. *)
Lemma composite_cutoffs_are_never_negative_witness :
  nonnegative_pair
    (bandpass_cutoffs
       (fold_left after_band_call
          [Retune_band 2 (-1); Feed 100 centi; Retune_band 3 4]
          (BandPassFilter.mk (HighPassFilter.mk 1 5 5)
             (LowPassFilter.mk 2 5)))).
Proof.
  apply (proj1 (@composite_cutoffs_are_never_negative float float_Num)
           1 2 5).
  vm_compute. reflexivity.
Defined.

(** A duty cycle of 1.5 is rejected. *)
Lemma duty_cycle_validation_witness :
  PeriodicSignalGeneratorWithDutyCycle.set_duty_cycle 1.5
    (PeriodicSignalGeneratorWithDutyCycle.mk
       (PeriodicSignalGenerator.mk 1 0) 0.5) =
  (Raise ValueError,
   PeriodicSignalGeneratorWithDutyCycle.mk
     (PeriodicSignalGenerator.mk 1 0) 0.5).
Proof.
  apply (proj1 (@duty_cycle_validation float float_Num)).
  right. vm_compute. reflexivity.
Defined.

(** A quarter of the way through a 1 Hz period at duty cycle 0.5. *)
Lemma square_wave_is_zero_or_one_witness :
  (1 = f1 \/ 1 = f0)
  /\ fst (SquareWaveGenerator.sample 0.25
            (PeriodicSignalGeneratorWithDutyCycle.mk
               (PeriodicSignalGenerator.mk 1 0) 0.5)) = Ok 1.
Proof.
  split; [ | vm_compute; reflexivity ].
  apply (@square_wave_is_zero_or_one float float_Num 0.25 1
           (PeriodicSignalGeneratorWithDutyCycle.mk
              (PeriodicSignalGenerator.mk 1 0) 0.5)).
  vm_compute. reflexivity.
Defined.

(** The selector ['pseudo'] with a negative standard deviation. *)
Lemma gaussian_generator_validation_witness :
  exists self : GaussianRandomSignalGenerator.t float,
    GaussianRandomSignalGenerator.__init__ 0 (-1) (Some 7%Z) "pseudo"
    = Ok self
    /\ GaussianRandomSignalGenerator.mean self = 0
    /\ GaussianRandomSignalGenerator.std_dev self = -1.
Proof.
  apply (proj1 (gaussian_generator_validation 0 (-1) (Some 7%Z) "pseudo")).
  left. reflexivity.
Defined.

End FurtherBinary64Runs.

Section FurtherExactRuns.
Local Open Scope R_scope.
Import PeriodicSignalGeneratorWithDutyCycle.










End FurtherExactRuns.
